(** * ANOVA calculator: one-way and balanced two-way engines, post-hoc suite

    A shallow embedding of [one_way_logic.py], [two_way_logic.py] and
    [post_hoc.py].

    Numbers.  Python [int]s are [Z] (or [nat] for lengths and indices).
    The observations are float64 in the program; here they are exact
    rationals ([Q], compared with [==]), so every identity below is an
    identity of exact arithmetic: rounding, overflow, infinities and NaN
    produced by float64 are outside the model.  The one infinity the code
    writes itself, [float("inf")] for an F statistic, is kept as a
    constructor of [xnum].

    Errors.  Functions that can raise return a [result].  Every division is
    checked: a zero divisor is reported as [ZeroDivisionError], whether
    Python would raise or numpy would only warn, so a run that succeeds in
    the model has divided by no zero.

    Outside routines.  [np.sqrt], [scipy.stats.f.sf], [scipy.stats.ttest_ind]
    and [scipy.stats.tukey_hsd] are not code of this repository; they are
    section variables, total functions into [Q]. *)

From Stdlib Require Import String DecimalString.
From Stdlib Require Import List Sorted ZArith QArith Qabs Qminmax Bool Lia Lqa.
Import ListNotations.

Open Scope Q_scope.

(** ** Exceptions and results *)

Inductive exn : Type :=
| ValueError (msg : string)
| IndexError
| ZeroDivisionError.

Inductive result (A : Type) : Type :=
| Ok (a : A)
| Raise (e : exn).

Arguments Ok {A} a.
Arguments Raise {A} e.

Definition bind {A B : Type} (m : result A) (f : A -> result B) : result B :=
  match m with
  | Ok a => f a
  | Raise e => Raise e
  end.

Notation "x <- m ;; f" := (bind m (fun x => f))
  (at level 61, m at next level, right associativity).

(** A list comprehension whose body can raise: left to right, first
    exception wins. *)
Fixpoint mapM {A B : Type} (f : A -> result B) (l : list A) : result (list B) :=
  match l with
  | [] => Ok []
  | x :: xs => y <- f x ;; ys <- mapM f xs ;; Ok (y :: ys)
  end.

(** [seq[i]] on a Python list. *)
Definition getitem {A : Type} (l : list A) (i : nat) : result A :=
  match nth_error l i with
  | Some x => Ok x
  | None => Raise IndexError
  end.

(** ** Numbers *)

(** A float that is either an ordinary number or [float("inf")]. *)
Inductive xnum : Type :=
| Fin (q : Q)
| PInf.

Definition ofZ (z : Z) : Q := inject_Z z.
Definition ofN (n : nat) : Q := inject_Z (Z.of_nat n).

Definition Qlt_bool (x y : Q) : bool := negb (Qle_bool y x).

(** [x / y], checked. *)
Definition div (x y : Q) : result Q :=
  if Qeq_bool y 0 then Raise ZeroDivisionError else Ok (x / y).

(** [x ** 2] *)
Definition sqr (x : Q) : Q := x * x.

(** [sum(...)] and [np.sum(...)]: the order of the additions does not matter
    in exact arithmetic. *)
Fixpoint sumQ (l : list Q) : Q :=
  match l with
  | [] => 0
  | x :: xs => x + sumQ xs
  end.

Definition len {A : Type} (l : list A) : Z := Z.of_nat (length l).

(** [np.mean(g)]: sum over count. *)
Definition np_mean (g : list Q) : result Q := div (sumQ g) (ofN (length g)).

(** [np.sum((g - m) ** 2)] *)
Definition sum_sq_dev (g : list Q) (m : Q) : Q :=
  sumQ (map (fun x => sqr (x - m)) g).

(** [np.std(g, ddof=1)], with [np.sqrt] passed in. *)
Definition np_std1 (sqrtQ : Q -> Q) (g : list Q) : result Q :=
  m <- np_mean g ;;
  v <- div (sum_sq_dev g m) (ofZ (len g - 1)) ;;
  Ok (sqrtQ v).

(** [np.std(g, ddof=1) / np.sqrt(len(g))] *)
Definition std_err (sqrtQ : Q -> Q) (g : list Q) : result Q :=
  sd <- np_std1 sqrtQ g ;;
  div sd (sqrtQ (ofN (length g))).

(** Python's [min(a, b)]: [b] when [b < a], else [a]. *)
Definition py_min (a b : Q) : Q := if Qlt_bool b a then b else a.

(** [str(n)] for a non-negative [int]. *)
Definition str_nat (n : nat) : string := NilEmpty.string_of_uint (Nat.to_uint n).


(** ** one_way_logic.py *)

Module OneWayANOVA.

(** What [__init__] accepts as [data]. *)
Inductive data_t : Type :=
| DictData (d : list (string * list Q))  (* a dict, items in insertion order *)
| SeqData (l : list (list Q))            (* a list, tuple or ndarray of groups *)
| OtherData.                             (* any other object *)

Record t : Type := mk {
  groups : list (list Q);
  _group_names : list string;
  k : Z;
  n_total : Z
}.

(** [for i, g in enumerate(self.groups): if len(g) < 1: raise ...],
    started at index [i]. *)
Fixpoint check_nonempty (i : nat) (gs : list (list Q)) : result unit :=
  match gs with
  | [] => Ok tt
  | g :: rest =>
      if (len g <? 1)%Z
      then Raise (ValueError ("Group " ++ str_nat (i + 1) ++ " is empty."))
      else check_nonempty (S i) rest
  end.

Definition standardize (data : data_t) : result (list (list Q) * list string) :=
  match data with
  | DictData d => Ok (map snd d, map fst d)
  | SeqData l =>
      Ok (l, map (fun i => "Group " ++ str_nat (i + 1))%string (seq 0 (length l)))
  | OtherData =>
      Raise (ValueError
        "Unsupported data format. Provide a list of lists, numpy array, or dictionary.")
  end.

Definition init (data : data_t) (group_names : option (list string)) : result t :=
  gn <- standardize data ;;
  let '(gs, auto_names) := gn in
  names <- match group_names with
           | None => Ok auto_names
           | Some ns =>
               if negb (len ns =? len gs)%Z
               then Raise (ValueError
                      ("group_names length (" ++ str_nat (length ns)
                       ++ ") must match number of groups ("
                       ++ str_nat (length gs) ++ ")."))
               else Ok ns
           end ;;
  if (len gs <? 2)%Z then Raise (ValueError "ANOVA requires at least 2 groups.")
  else
    _ <- check_nonempty 0 gs ;;
    Ok {| groups := gs;
          _group_names := names;
          k := len gs;
          n_total := fold_right Z.add 0%Z (map len gs) |}.

Record results : Type := mk_results {
  SS_between : Q; SS_within : Q; SS_total : Q;
  df_between : Z; df_within : Z; df_total : Z;
  MS_between : Q; MS_within : Q;
  F : xnum;
  p_value : Q;
  group_means : list Q;
  group_se : list Q;
  group_names : list string;
  grand_mean : Q;
  residuals : list Q
}.

Section Calculate.

Variable sqrtQ : Q -> Q.              (* np.sqrt *)
Variable f_sf : xnum -> Z -> Z -> Q.  (* scipy.stats.f.sf *)

(** The rendered [summary] string is not part of the numeric model. *)
Definition calculate (self : t) : result results :=
  group_means <- mapM np_mean (groups self) ;;
  grand_mean <- div (sumQ (map sumQ (groups self))) (ofZ (n_total self)) ;;
  let gm := combine (groups self) group_means in
  let ss_between :=
    sumQ (map (fun '(g, m) => ofN (length g) * sqr (m - grand_mean)) gm) in
  let ss_within := sumQ (map (fun '(g, m) => sum_sq_dev g m) gm) in
  let ss_total := sumQ (map (fun g => sum_sq_dev g grand_mean) (groups self)) in
  let df_between := (k self - 1)%Z in
  let df_within := (n_total self - k self)%Z in
  let df_total := (n_total self - 1)%Z in
  ms_between <- div ss_between (ofZ df_between) ;;
  ms_within <- (if (0 <? df_within)%Z then div ss_within (ofZ df_within)
                else Ok 0) ;;
  f_stat <- (if Qlt_bool 0 ms_within
             then q <- div ms_between ms_within ;; Ok (Fin q)
             else Ok PInf) ;;
  let p_value := f_sf f_stat df_between df_within in
  let residuals := concat (map (fun '(g, m) => map (fun x => x - m) g) gm) in
  group_se <- mapM (fun g => if (1 <? len g)%Z
                             then std_err sqrtQ g
                             else Ok 0)
                   (groups self) ;;
  Ok {| SS_between := ss_between; SS_within := ss_within; SS_total := ss_total;
        df_between := df_between; df_within := df_within; df_total := df_total;
        MS_between := ms_between; MS_within := ms_within;
        F := f_stat;
        p_value := p_value;
        group_means := group_means;
        group_se := group_se;
        group_names := _group_names self;
        grand_mean := grand_mean;
        residuals := residuals |}.

End Calculate.

End OneWayANOVA.

(** ** two_way_logic.py *)

Module TwoWayANOVA.

Record t : Type := mk {
  data : list (list (list Q));
  factor_a_name : string;
  factor_b_name : string;
  a : Z;
  b : Z;
  r : Z;
  N : Z
}.

(** [for j in range(self.b): if len(self.data[i][j]) != self.r: raise ...]
    over the cells of row [i], started at column [j]. *)
Fixpoint check_cells (r : Z) (i j : nat) (cells : list (list Q)) : result unit :=
  match cells with
  | [] => Ok tt
  | c :: rest =>
      if negb (len c =? r)%Z
      then Raise (ValueError
             ("Cell (" ++ str_nat i ++ "," ++ str_nat j ++ ") has "
              ++ str_nat (length c) ++ " replicates, expected "
              ++ str_nat (Z.to_nat r)
              ++ ". All cells must have equal replicates."))
      else check_cells r i (S j) rest
  end.

(** [for i in range(self.a): ...] over the rows, started at row [i]. *)
Fixpoint check_rows (b r : Z) (i : nat) (rows : list (list (list Q))) : result unit :=
  match rows with
  | [] => Ok tt
  | row :: rest =>
      if negb (len row =? b)%Z
      then Raise (ValueError
             ("Row " ++ str_nat i ++ " has " ++ str_nat (length row)
              ++ " columns, expected " ++ str_nat (Z.to_nat b)
              ++ ". Design must be balanced."))
      else _ <- check_cells r i 0 row ;; check_rows b r (S i) rest
  end.

Definition _validate (self : t) : result unit :=
  if (a self <? 2)%Z
  then Raise (ValueError "Factor A must have at least 2 levels.")
  else if (b self <? 2)%Z
  then Raise (ValueError "Factor B must have at least 2 levels.")
  else if (r self <? 2)%Z
  then Raise (ValueError
         "Two-way ANOVA with replication requires at least 2 replicates per cell.")
  else check_rows (b self) (r self) 0 (data self).

Definition init (data : list (list (list Q))) (factor_a_name factor_b_name : string)
  : result t :=
  let a := len data in
  row0 <- getitem data 0 ;;
  let b := len row0 in
  cell00 <- getitem row0 0 ;;
  let r := len cell00 in
  let self := {| data := data;
                 factor_a_name := factor_a_name;
                 factor_b_name := factor_b_name;
                 a := a; b := b; r := r;
                 N := (a * b * r)%Z |} in
  _ <- _validate self ;;
  Ok self.

(** The call with the default factor names. *)
Definition init_default (data : list (list (list Q))) : result t :=
  init data "Factor A" "Factor B".

Record results : Type := mk_results {
  SS_A : Q; SS_B : Q; SS_AB : Q; SS_error : Q; SS_total : Q;
  df_A : Z; df_B : Z; df_AB : Z; df_error : Z; df_total : Z;
  MS_A : Q; MS_B : Q; MS_AB : Q; MS_error : Q;
  F_A : xnum; F_B : xnum; F_AB : xnum;
  p_A : Q; p_B : Q; p_AB : Q;
  cell_means : list (list Q);
  row_means : list Q;
  col_means : list Q;
  grand_mean : Q;
  residuals : list Q;
  groups_by_a : list (list Q);
  groups_by_b : list (list Q);
  a_names : list string;
  b_names : list string;
  se_a : list Q;
  se_b : list Q
}.

(** [arr[:, j, :]]: the cells of column [j], one per row. *)
Definition column (arr : list (list (list Q))) (j : nat) : list (list Q) :=
  map (fun row => nth j row []) arr.

(** [ms_x / ms_e if ms_e > 0 else float("inf")] *)
Definition f_ratio (ms_x ms_e : Q) : result xnum :=
  if Qlt_bool 0 ms_e then q <- div ms_x ms_e ;; Ok (Fin q) else Ok PInf.

Section Calculate.

Variable sqrtQ : Q -> Q.              (* np.sqrt *)
Variable f_sf : xnum -> Z -> Z -> Q.  (* scipy.stats.f.sf *)

(** [arr] is [np.array(self.data, dtype=float)], of shape (a, b, r); a mean
    over some axes is the sum over them divided by the number of entries
    summed.  The rendered [summary] string is not part of the numeric
    model. *)
Definition calculate (self : t) : result results :=
  let a := a self in
  let b := b self in
  let r := r self in
  let arr := data self in
  grand_mean <- div (sumQ (map (fun row => sumQ (map sumQ row)) arr))
                    (ofZ (a * b * r)) ;;
  row_means <- mapM (fun row => div (sumQ (map sumQ row)) (ofZ (b * r))) arr ;;
  col_means <- mapM (fun j => div (sumQ (map sumQ (column arr j))) (ofZ (a * r)))
                    (seq 0 (Z.to_nat b)) ;;
  cell_means <- mapM (mapM (fun cell => div (sumQ cell) (ofZ r))) arr ;;
  let ss_a := ofZ b * ofZ r
              * sumQ (map (fun m => sqr (m - grand_mean)) row_means) in
  let ss_b := ofZ a * ofZ r
              * sumQ (map (fun m => sqr (m - grand_mean)) col_means) in
  let ss_ab :=
    ofZ r * sumQ (map (fun '(cms, rm) =>
                         sumQ (map (fun '(c, cm) => sqr (c - rm - cm + grand_mean))
                                   (combine cms col_means)))
                      (combine cell_means row_means)) in
  let ss_e :=
    sumQ (map (fun '(row, cms) =>
                 sumQ (map (fun '(cell, c) => sum_sq_dev cell c) (combine row cms)))
              (combine arr cell_means)) in
  let ss_t :=
    sumQ (map (fun row => sumQ (map (fun cell => sum_sq_dev cell grand_mean) row))
              arr) in
  let df_a := (a - 1)%Z in
  let df_b := (b - 1)%Z in
  let df_ab := ((a - 1) * (b - 1))%Z in
  let df_e := (a * b * (r - 1))%Z in
  let df_t := (N self - 1)%Z in
  ms_a <- div ss_a (ofZ df_a) ;;
  ms_b <- div ss_b (ofZ df_b) ;;
  ms_ab <- div ss_ab (ofZ df_ab) ;;
  ms_e <- (if (0 <? df_e)%Z then div ss_e (ofZ df_e) else Ok 0) ;;
  f_a <- f_ratio ms_a ms_e ;;
  f_b <- f_ratio ms_b ms_e ;;
  f_ab <- f_ratio ms_ab ms_e ;;
  let residuals :=
    concat (map (fun '(row, cms) =>
                   concat (map (fun '(cell, c) => map (fun x => x - c) cell)
                               (combine row cms)))
                (combine arr cell_means)) in
  let groups_by_a := map (fun row => concat row) arr in
  let groups_by_b := map (fun j => concat (column arr j)) (seq 0 (Z.to_nat b)) in
  let a_names := map (fun i => factor_a_name self ++ " " ++ str_nat (i + 1))%string
                     (seq 0 (Z.to_nat a)) in
  let b_names := map (fun j => factor_b_name self ++ " " ++ str_nat (j + 1))%string
                     (seq 0 (Z.to_nat b)) in
  se_a <- mapM (std_err sqrtQ) groups_by_a ;;
  se_b <- mapM (std_err sqrtQ) groups_by_b ;;
  Ok {| SS_A := ss_a; SS_B := ss_b; SS_AB := ss_ab; SS_error := ss_e;
        SS_total := ss_t;
        df_A := df_a; df_B := df_b; df_AB := df_ab; df_error := df_e;
        df_total := df_t;
        MS_A := ms_a; MS_B := ms_b; MS_AB := ms_ab; MS_error := ms_e;
        F_A := f_a; F_B := f_b; F_AB := f_ab;
        p_A := f_sf f_a df_a df_e;
        p_B := f_sf f_b df_b df_e;
        p_AB := f_sf f_ab df_ab df_e;
        cell_means := cell_means;
        row_means := row_means;
        col_means := col_means;
        grand_mean := grand_mean;
        residuals := residuals;
        groups_by_a := groups_by_a;
        groups_by_b := groups_by_b;
        a_names := a_names;
        b_names := b_names;
        se_a := se_a;
        se_b := se_b |}.

End Calculate.

End TwoWayANOVA.

(** ** post_hoc.py *)

(** [itertools.combinations(l, 2)]: pairs of positions, in lexicographic
    order of position. *)
Fixpoint combinations2 {A : Type} (l : list A) : list (A * A) :=
  match l with
  | [] => []
  | x :: xs => map (pair x) xs ++ combinations2 xs
  end.


Module Tukey.
Record row : Type := mk {
  group1 : string; group2 : string;
  mean_diff : Q; p_value : Q; ci_low : Q; ci_high : Q;
  significant : bool
}.
End Tukey.

Module Bonferroni.
Record row : Type := mk {
  group1 : string; group2 : string;
  mean_diff : Q; t_stat : Q; p_raw : Q; p_adjusted : Q;
  significant : bool
}.
(** The table, and the per-comparison threshold that the summary reports. *)
Record output : Type := mk_output {
  table : list row;
  corrected_alpha : Q
}.
End Bonferroni.

Module Scheffe.
Record row : Type := mk {
  group1 : string; group2 : string;
  mean_diff : Q; F_scheffe : Q; p_value : Q;
  significant : bool
}.
End Scheffe.

(** The literal [0.05]. *)
Definition alpha_default : Q := 5 # 100.

Section PostHoc.

Variable sqrtQ : Q -> Q.                            (* np.sqrt *)
Variable f_sf : xnum -> Z -> Z -> Q.                (* scipy.stats.f.sf *)
Variable ttest_ind : list Q -> list Q -> Q * Q.     (* scipy.stats.ttest_ind *)
(* scipy.stats.tukey_hsd on the arrays: .pvalue[i][j] and the bounds of
   .confidence_interval(confidence_level=0.95) at [i][j] *)
Variable tukey_pvalue : list (list Q) -> nat -> nat -> Q.
Variable tukey_ci_low : list (list Q) -> nat -> nat -> Q.
Variable tukey_ci_high : list (list Q) -> nat -> nat -> Q.

(** [np.mean(arrays[i]) - np.mean(arrays[j])] *)
Definition mean_difference (arrays : list (list Q)) (i j : nat) : result Q :=
  ai <- getitem arrays i ;;
  mi <- np_mean ai ;;
  aj <- getitem arrays j ;;
  mj <- np_mean aj ;;
  Ok (mi - mj).


Definition bonferroni (groups : list (list Q)) (group_names : list string)
  (alpha : Q) : result Bonferroni.output :=
  let arrays := groups in
  let k := len arrays in
  let m := (k * (k - 1) / 2)%Z in
  corrected_alpha <- div alpha (ofZ m) ;;
  table <-
    mapM (fun '(i, j) =>
            ai <- getitem arrays i ;;
            aj <- getitem arrays j ;;
            let '(t_stat, p_raw) := ttest_ind ai aj in
            let p_adj := py_min (p_raw * ofZ m) 1 in
            diff <- mean_difference arrays i j ;;
            g1 <- getitem group_names i ;;
            g2 <- getitem group_names j ;;
            Ok {| Bonferroni.group1 := g1; Bonferroni.group2 := g2;
                  Bonferroni.mean_diff := diff;
                  Bonferroni.t_stat := t_stat;
                  Bonferroni.p_raw := p_raw;
                  Bonferroni.p_adjusted := p_adj;
                  Bonferroni.significant := Qlt_bool p_adj alpha |})
         (combinations2 (seq 0 (length arrays))) ;;
  Ok {| Bonferroni.table := table; Bonferroni.corrected_alpha := corrected_alpha |}.

(** The pooled error term [scheffe] works with: the caller's pair when both
    are given, else recomputed from the groups. *)
Definition scheffe_error_term (arrays : list (list Q))
  (ms_within : option Q) (df_within : option Z) : result (Q * Z) :=
  let k := len arrays in
  let N := fold_right Z.add 0%Z (map len arrays) in
  match ms_within, df_within with
  | Some ms, Some df => Ok (ms, df)
  | _, _ =>
      let df := (N - k)%Z in
      devs <- mapM (fun a => m <- np_mean a ;; Ok (sum_sq_dev a m)) arrays ;;
      let ss_within := sumQ devs in
      ms <- (if (0 <? df)%Z then div ss_within (ofZ df) else Ok 0) ;;
      Ok (ms, df)
  end.

Definition scheffe (groups : list (list Q)) (group_names : list string)
  (ms_within : option Q) (df_within : option Z) : result (list Scheffe.row) :=
  let arrays := groups in
  let k := len arrays in
  let ns := map (@length Q) arrays in
  term <- scheffe_error_term arrays ms_within df_within ;;
  let '(ms_within, df_within) := term in
  mapM (fun '(i, j) =>
          diff <- mean_difference arrays i j ;;
          ni <- getitem ns i ;;
          nj <- getitem ns j ;;
          ri <- div 1 (ofN ni) ;;
          rj <- div 1 (ofN nj) ;;
          let se := sqrtQ (ms_within * (ri + rj)) in
          f_val <- (if Qlt_bool 0 se
                    then div (sqr diff) (ofZ (k - 1) * ms_within * (ri + rj))
                    else Ok 0) ;;
          let p_val := f_sf (Fin f_val) (k - 1)%Z df_within in
          g1 <- getitem group_names i ;;
          g2 <- getitem group_names j ;;
          Ok {| Scheffe.group1 := g1; Scheffe.group2 := g2;
                Scheffe.mean_diff := diff;
                Scheffe.F_scheffe := f_val;
                Scheffe.p_value := p_val;
                Scheffe.significant := Qlt_bool p_val alpha_default |})
       (combinations2 (seq 0 (length arrays))).

End PostHoc.

(** ** The significance marker of the summaries *)

(** [sig(pv)], the helper nested in both [_format_summary] methods. *)
Definition sig (pv : Q) : string :=
  if Qlt_bool pv (1 # 1000) then " ***"
  else if Qlt_bool pv (1 # 100) then " **"
  else if Qlt_bool pv (5 # 100) then " *"
  else "".

(** ** Concrete inputs used below *)

(** Stand-ins for the outside routines, to run the model. *)
Definition test_sqrt (x : Q) : Q := x.
Definition test_sf (_ : xnum) (_ _ : Z) : Q := 0.
Definition test_ttest (_ _ : list Q) : Q * Q := (-3, 1 # 50).
(** The unbalanced design of [tests/test_one_way.py], and the object
    [OneWayANOVA(...)] builds from it. *)
Definition test_groups : list (list Q) :=
  [[10; 12; 11; 13]; [15; 16; 14]; [20; 21; 19; 22; 20]].
Definition test_names : list string := ["Low"; "Medium"; "High"]%string.
Definition test_data : OneWayANOVA.data_t := OneWayANOVA.SeqData test_groups.
Definition test_self : OneWayANOVA.t :=
  {| OneWayANOVA.groups := test_groups;
     OneWayANOVA._group_names := ["Group 1"; "Group 2"; "Group 3"]%string;
     OneWayANOVA.k := 3;
     OneWayANOVA.n_total := 12 |}.
(** The 2 x 3 x 3 grid of [tests/test_two_way.py], and the object
    [TwoWayANOVA(...)] builds from it. *)
Definition grid_2x3 : list (list (list Q)) :=
  [ [[12; 14; 13]; [15; 16; 14]; [18; 17; 19]];
    [[10; 11; 12]; [13; 14; 12]; [16; 15; 17]] ].
Definition grid_self : TwoWayANOVA.t :=
  {| TwoWayANOVA.data := grid_2x3;
     TwoWayANOVA.factor_a_name := "Factor A";
     TwoWayANOVA.factor_b_name := "Factor B";
     TwoWayANOVA.a := 2; TwoWayANOVA.b := 3; TwoWayANOVA.r := 3;
     TwoWayANOVA.N := 18 |}.
(** The mapping input of [tests/test_one_way.py], as constructed. *)
Definition dict_self : OneWayANOVA.t :=
  {| OneWayANOVA.groups := [[1; 2; 3]; [4; 5; 6]];
     OneWayANOVA._group_names := ["Control"; "Treatment"]%string;
     OneWayANOVA.k := 2;
     OneWayANOVA.n_total := 6 |}.
(** A ragged grid: the first row has no cell, the second has two. *)
Definition ragged_grid : list (list (list Q)) := [ []; [[1; 2]; [3; 4]] ].

(** ** Vocabulary of the statements *)

(** The value of [np.mean(g)] when it is defined. *)
Definition mean (g : list Q) : Q := sumQ g / ofN (length g).

(** Total number of observations, [sum(len(g) for g in groups)]. *)
Definition total_len (gs : list (list Q)) : Z := fold_right Z.add 0%Z (map len gs).

(** A valid one-way group set: at least two groups, none empty. *)
Definition valid_groups (gs : list (list Q)) : Prop :=
  (2 <= length gs)%nat /\ Forall (fun g => g <> []) gs.

(** The value of [np.std(g, ddof=1) / np.sqrt(len(g))] when it is defined. *)
Definition std_err_val (sqrtQ : Q -> Q) (g : list Q) : Q :=
  sqrtQ (sum_sq_dev g (mean g) / ofZ (len g - 1)) / sqrtQ (ofN (length g)).

(** [f 0 + ... + f (n - 1)] *)
Definition bsum (n : nat) (f : nat -> Q) : Q := sumQ (map f (seq 0 n)).







(** Pooled within-group sum of squares, [sum(np.sum((a - np.mean(a)) ** 2))]. *)
Definition pooled_ss (groups : list (list Q)) : Q :=
  sumQ (map (fun g => sum_sq_dev g (mean g)) groups).

(** The error term [scheffe] computes when it is not handed one. *)
Definition pooled_term (groups : list (list Q)) : Q * Z :=
  let df := (total_len groups - len groups)%Z in
  (if (0 <? df)%Z then pooled_ss groups / ofZ df else 0, df).


(** The invariant that [OneWayANOVA.__init__] establishes. *)
Definition one_way_wf (self : OneWayANOVA.t) : Prop :=
  valid_groups (OneWayANOVA.groups self)
  /\ OneWayANOVA.k self = len (OneWayANOVA.groups self)
  /\ OneWayANOVA.n_total self = total_len (OneWayANOVA.groups self).

(** A grid whose rows all have [b] cells and whose cells all have [r]
    replicates. *)
Definition rectangular (b r : Z) (data : list (list (list Q))) : Prop :=
  Forall (fun row => len row = b /\ Forall (fun cell : list Q => len cell = r) row)
         data.

(** The invariant that [TwoWayANOVA.__init__] establishes: a balanced
    a x b x r grid with a, b, r >= 2. *)
Definition two_way_wf (self : TwoWayANOVA.t) : Prop :=
  TwoWayANOVA.a self = len (TwoWayANOVA.data self)
  /\ (2 <= TwoWayANOVA.a self)%Z
  /\ (2 <= TwoWayANOVA.b self)%Z
  /\ (2 <= TwoWayANOVA.r self)%Z
  /\ TwoWayANOVA.N self
     = (TwoWayANOVA.a self * TwoWayANOVA.b self * TwoWayANOVA.r self)%Z
  /\ rectangular (TwoWayANOVA.b self) (TwoWayANOVA.r self) (TwoWayANOVA.data self).

(** The groups that [OneWayANOVA.__init__] reads out of a supported input. *)
Definition groups_of (data : OneWayANOVA.data_t) : list (list Q) :=
  match data with
  | OneWayANOVA.DictData d => map snd d
  | OneWayANOVA.SeqData l => l
  | OneWayANOVA.OtherData => []
  end.

(** ** Basic facts *)

Lemma Qlt_bool_iff (x y : Q) : Qlt_bool x y = true <-> x < y.
Proof.
  unfold Qlt_bool. rewrite negb_true_iff. split; intro H.
  - apply Qnot_le_lt. intro Hle. apply Qle_bool_iff in Hle. congruence.
  - destruct (Qle_bool y x) eqn:E; [|reflexivity].
    apply Qle_bool_iff in E. exfalso. apply (Qlt_not_le _ _ H E).
Qed.

Lemma Qlt_bool_false (x y : Q) : Qlt_bool x y = false <-> y <= x.
Proof.
  unfold Qlt_bool. rewrite negb_false_iff. apply Qle_bool_iff.
Qed.

Lemma div_ok (x y : Q) : ~ y == 0 -> div x y = Ok (x / y).
Proof.
  intro H. unfold div. destruct (Qeq_bool y 0) eqn:E; [|reflexivity].
  apply Qeq_bool_iff in E. contradiction.
Qed.

Lemma div_zero (x y : Q) : y == 0 -> div x y = Raise ZeroDivisionError.
Proof.
  intro H. unfold div. apply Qeq_bool_iff in H. now rewrite H.
Qed.

Lemma ofZ_nonzero (z : Z) : z <> 0%Z -> ~ ofZ z == 0.
Proof.
  unfold ofZ, Qeq. simpl. lia.
Qed.

Lemma ofZ_pos (z : Z) : (0 < z)%Z -> 0 < ofZ z.
Proof.
  unfold ofZ, Qlt. simpl. lia.
Qed.

Lemma ofN_nonzero (n : nat) : n <> 0%nat -> ~ ofN n == 0.
Proof.
  unfold ofN, Qeq. simpl. lia.
Qed.

Lemma ofN_pos (n : nat) : (0 < n)%nat -> 0 < ofN n.
Proof.
  unfold ofN, Qlt. simpl. lia.
Qed.

Lemma ofN_S (n : nat) : ofN (S n) == 1 + ofN n.
Proof.
  unfold ofN. rewrite Nat2Z.inj_succ, <- Z.add_1_l, inject_Z_plus. reflexivity.
Qed.

Lemma length_nonzero {A : Type} (l : list A) : l <> [] -> length l <> 0%nat.
Proof.
  destruct l; simpl; congruence.
Qed.

Lemma mapM_ok {A B : Type} (f : A -> result B) (g : A -> B) (l : list A) :
  (forall x, In x l -> f x = Ok (g x)) -> mapM f l = Ok (map g l).
Proof.
  induction l as [|x xs IH]; intro H; simpl; [reflexivity|].
  rewrite (H x (or_introl eq_refl)). simpl.
  rewrite IH by (intros y Hy; apply H; now right). reflexivity.
Qed.

Lemma mapM_length {A B : Type} (f : A -> result B) (l : list A) (l' : list B) :
  mapM f l = Ok l' -> length l' = length l.
Proof.
  revert l'. induction l as [|x xs IH]; intros l' H; simpl in H.
  - now inversion H.
  - destruct (f x); [|discriminate]. simpl in H.
    destruct (mapM f xs); [|discriminate]. simpl in H.
    inversion H. simpl. f_equal. now apply IH.
Qed.

Lemma np_mean_ok (g : list Q) : g <> [] -> np_mean g = Ok (mean g).
Proof.
  intro H. unfold np_mean, mean. apply div_ok, ofN_nonzero, length_nonzero, H.
Qed.

Lemma map_combine_map {A B C : Type} (f : A * B -> C) (g : A -> B) (l : list A) :
  map f (combine l (map g l)) = map (fun x => f (x, g x)) l.
Proof.
  induction l as [|x xs IH]; simpl; [reflexivity|]. now rewrite IH.
Qed.

Lemma sumQ_app (l1 l2 : list Q) : sumQ (l1 ++ l2) == sumQ l1 + sumQ l2.
Proof.
  induction l1 as [|x xs IH]; simpl; [ring|]. rewrite IH. ring.
Qed.

Lemma sumQ_concat (ls : list (list Q)) : sumQ (concat ls) == sumQ (map sumQ ls).
Proof.
  induction ls as [|l rest IH]; simpl; [reflexivity|].
  rewrite sumQ_app, IH. reflexivity.
Qed.

Lemma sumQ_ext {A : Type} (f g : A -> Q) (l : list A) :
  (forall x, In x l -> f x == g x) -> sumQ (map f l) == sumQ (map g l).
Proof.
  induction l as [|x xs IH]; intro H; simpl; [reflexivity|].
  rewrite (H x (or_introl eq_refl)), IH; [reflexivity|].
  intros y Hy. apply H. now right.
Qed.

Lemma sumQ_plus {A : Type} (f g : A -> Q) (l : list A) :
  sumQ (map (fun x => f x + g x) l) == sumQ (map f l) + sumQ (map g l).
Proof.
  induction l as [|x xs IH]; simpl; [ring|]. rewrite IH. ring.
Qed.

Lemma sumQ_scale {A : Type} (c : Q) (f : A -> Q) (l : list A) :
  sumQ (map (fun x => c * f x) l) == c * sumQ (map f l).
Proof.
  induction l as [|x xs IH]; simpl; [ring|]. rewrite IH. ring.
Qed.

Lemma sumQ_nonneg (l : list Q) : Forall (fun x => 0 <= x) l -> 0 <= sumQ l.
Proof.
  induction 1 as [|x xs Hx _ IH]; simpl; [apply Qle_refl|].
  replace 0 with (0 + 0) by reflexivity. now apply Qplus_le_compat.
Qed.

(** ** Sums of squared deviations of one sample *)

(** Deviations from any centre [c], re-centred at any [m]. *)
Lemma sum_sq_dev_shift (g : list Q) (m c : Q) :
  sum_sq_dev g c ==
  sum_sq_dev g m + 2 * (m - c) * (sumQ g - ofN (length g) * m)
  + ofN (length g) * sqr (m - c).
Proof.
  unfold sum_sq_dev. induction g as [|x xs IH].
  - simpl. unfold ofN. simpl. ring.
  - cbn [map sumQ length]. rewrite IH, ofN_S. unfold sqr. ring.
Qed.

Lemma mean_balance (g : list Q) :
  g <> [] -> sumQ g - ofN (length g) * mean g == 0.
Proof.
  intro H. unfold mean. field. apply ofN_nonzero, length_nonzero, H.
Qed.

(** Steiner's identity for one sample. *)
Lemma sum_sq_dev_mean (g : list Q) (c : Q) :
  g <> [] ->
  sum_sq_dev g c == sum_sq_dev g (mean g) + ofN (length g) * sqr (mean g - c).
Proof.
  intro H. rewrite (sum_sq_dev_shift g (mean g) c), (mean_balance g H). ring.
Qed.

Lemma sum_residuals (g : list Q) (m : Q) :
  sumQ (map (fun x => x - m) g) == sumQ g - ofN (length g) * m.
Proof.
  induction g as [|x xs IH].
  - simpl. unfold ofN. simpl. ring.
  - cbn [map sumQ length]. rewrite IH, ofN_S. ring.
Qed.

Lemma sum_sq_dev_nonneg (g : list Q) (c : Q) : 0 <= sum_sq_dev g c.
Proof.
  unfold sum_sq_dev. apply sumQ_nonneg, Forall_forall.
  intros y Hy. apply in_map_iff in Hy as [x [<- _]].
  unfold sqr. generalize (x - c). intro z. nra.
Qed.

(** ** OneWayANOVA: construction *)

Lemma total_len_ge (gs : list (list Q)) :
  Forall (fun g => g <> []) gs -> (len gs <= total_len gs)%Z.
Proof.
  unfold total_len, len. induction 1 as [|g rest Hg _ IH]; [simpl; lia|].
  cbn [map fold_right length]. apply length_nonzero in Hg. lia.
Qed.

Lemma check_nonempty_ok (i : nat) (gs : list (list Q)) :
  Forall (fun g => g <> []) gs -> OneWayANOVA.check_nonempty i gs = Ok tt.
Proof.
  intro H. revert i. induction H as [|g rest Hg _ IH]; intro i; simpl; [reflexivity|].
  destruct g as [|x g]; [congruence|].
  unfold len. cbn [length]. destruct (Z.ltb_spec (Z.of_nat (S (length g))) 1); [lia|].
  apply IH.
Qed.

Lemma check_nonempty_raise (i : nat) (gs : list (list Q)) :
  Exists (fun g => g = []) gs ->
  exists msg, OneWayANOVA.check_nonempty i gs = Raise (ValueError msg).
Proof.
  intro H. revert i. induction H as [g rest Hg|g rest _ IH]; intro i; simpl.
  - subst g. cbn. eauto.
  - destruct (len g <? 1)%Z; [eauto|apply IH].
Qed.

Lemma nonempty_dec (gs : list (list Q)) :
  Forall (fun g => g <> []) gs \/ Exists (fun g : list Q => g = []) gs.
Proof.
  induction gs as [|g rest [IH|IH]].
  - left. constructor.
  - destruct g; [right; now left|left; constructor; [discriminate|assumption]].
  - right. now right.
Qed.

Lemma nonempty_not_both (gs : list (list Q)) :
  Forall (fun g => g <> []) gs -> Exists (fun g : list Q => g = []) gs -> False.
Proof.
  intros HF HE. apply Exists_exists in HE as [g [Hin Hg]].
  rewrite Forall_forall in HF. exact (HF g Hin Hg).
Qed.

Lemma standardize_groups (data : OneWayANOVA.data_t) :
  data <> OneWayANOVA.OtherData ->
  exists auto_names,
    OneWayANOVA.standardize data = Ok (groups_of data, auto_names).
Proof.
  destruct data; simpl; intro H; eauto. congruence.
Qed.

(** Construction succeeds on a valid group set with a matching (or no) name
    list, and establishes the invariant. *)
Lemma init_ok (data : OneWayANOVA.data_t) (names : option (list string)) :
  data <> OneWayANOVA.OtherData ->
  valid_groups (groups_of data) ->
  (forall ns, names = Some ns -> length ns = length (groups_of data)) ->
  exists self, OneWayANOVA.init data names = Ok self
               /\ OneWayANOVA.groups self = groups_of data.
Proof.
  intros Hd [Hk Hne] Hn. destruct (standardize_groups data Hd) as [an Hs].
  unfold OneWayANOVA.init. rewrite Hs. cbn [bind].
  assert (Hnames : exists nm,
    match names with
    | Some ns =>
        if negb (len ns =? len (groups_of data))%Z
        then Raise (ValueError
               ("group_names length (" ++ str_nat (length ns)
                ++ ") must match number of groups ("
                ++ str_nat (length (groups_of data)) ++ ")."))
        else Ok ns
    | None => Ok an
    end = Ok nm).
  { destruct names as [ns|]; [|eauto].
    unfold len. rewrite (Hn ns eq_refl), Z.eqb_refl. simpl. eauto. }
  destruct Hnames as [nm ->]. cbn [bind].
  unfold len at 1. destruct (Z.ltb_spec (Z.of_nat (length (groups_of data))) 2); [lia|].
  rewrite (check_nonempty_ok 0 _ Hne). cbn [bind]. eexists. split; reflexivity.
Qed.

Lemma init_inv (data : OneWayANOVA.data_t) (names : option (list string))
  (self : OneWayANOVA.t) :
  OneWayANOVA.init data names = Ok self ->
  data <> OneWayANOVA.OtherData
  /\ OneWayANOVA.groups self = groups_of data
  /\ one_way_wf self
  /\ length (OneWayANOVA._group_names self) = length (groups_of data)
  /\ (forall ns, names = Some ns -> length ns = length (groups_of data)).
Proof.
  unfold OneWayANOVA.init. intro H.
  assert (Hd : data <> OneWayANOVA.OtherData)
    by (intro E; subst data; simpl in H; discriminate).
  destruct (standardize_groups data Hd) as [an Hs].
  assert (Han : length an = length (groups_of data)).
  { destruct data; simpl in Hs; inversion Hs; subst; simpl.
    - now rewrite !length_map.
    - now rewrite length_map, length_seq. }
  rewrite Hs in H. cbn [bind] in H.
  destruct names as [ns|].
  - destruct (Z.eqb_spec (len ns) (len (groups_of data))) as [E|E];
      cbn [negb bind] in H; [|discriminate].
    destruct (Z.ltb_spec (len (groups_of data)) 2); [discriminate|].
    destruct (nonempty_dec (groups_of data)) as [Hne|He].
    + rewrite (check_nonempty_ok 0 _ Hne) in H. cbn [bind] in H.
      inversion H; subst; clear H. cbn.
      unfold one_way_wf, valid_groups, len in *. cbn.
      repeat split; try assumption; try lia.
      intros ns' E'. inversion E'; subst. lia.
    + destruct (check_nonempty_raise 0 _ He) as [msg Hm].
      rewrite Hm in H. discriminate.
  - cbn [bind] in H.
    destruct (Z.ltb_spec (len (groups_of data)) 2); [discriminate|].
    destruct (nonempty_dec (groups_of data)) as [Hne|He].
    + rewrite (check_nonempty_ok 0 _ Hne) in H. cbn [bind] in H.
      inversion H; subst; clear H. cbn.
      unfold one_way_wf, valid_groups, len in *. cbn.
      repeat split; try assumption; try lia.
      intros ns' E'. discriminate.
    + destruct (check_nonempty_raise 0 _ He) as [msg Hm].
      rewrite Hm in H. discriminate.
Qed.

(** Whatever [__init__] raises is a [ValueError]. *)
Lemma init_raises_only_ValueError (data : OneWayANOVA.data_t)
  (names : option (list string)) (e : exn) :
  OneWayANOVA.init data names = Raise e -> exists msg, e = ValueError msg.
Proof.
  unfold OneWayANOVA.init. intro H.
  destruct data as [d|l|]; cbn [OneWayANOVA.standardize bind] in H;
    try (inversion H; eauto; fail).
  all: destruct names as [ns|]; cbn [bind] in H.
  all: repeat match type of H with
       | context [if ?c then _ else _] =>
           destruct c; cbn [bind] in H; try (inversion H; eauto; fail)
       end.
  all: match type of H with
       | context [OneWayANOVA.check_nonempty 0 ?gs] =>
           destruct (nonempty_dec gs) as [Hne|He];
           [rewrite (check_nonempty_ok 0 _ Hne) in H; discriminate
           |destruct (check_nonempty_raise 0 _ He) as [msg Hm];
            rewrite Hm in H; inversion H; eauto]
       end.
Qed.

(** ** OneWayANOVA: calculate *)

Section OneWayTheory.

Variable sqrtQ : Q -> Q.
Variable f_sf : xnum -> Z -> Z -> Q.

(** What is used of the square root: it is positive on positive numbers. *)
Hypothesis sqrtQ_pos : forall x, 0 < x -> 0 < sqrtQ x.

Lemma std_err_ok (g : list Q) :
  (1 < len g)%Z -> std_err sqrtQ g = Ok (std_err_val sqrtQ g).
Proof.
  intro H. unfold std_err, np_std1, std_err_val.
  assert (Hg : g <> []) by (intro E; subst g; unfold len in H; simpl in H; lia).
  rewrite (np_mean_ok g Hg). cbn [bind].
  rewrite div_ok by (apply ofZ_nonzero; lia). cbn [bind].
  apply div_ok. intro E.
  assert (Hp : 0 < sqrtQ (ofN (length g)))
    by (apply sqrtQ_pos, ofN_pos; unfold len in H; lia).
  rewrite E in Hp. now apply Qlt_irrefl in Hp.
Qed.

(** On a constructed object [calculate] returns, and this is what it
    returns. *)
Lemma one_way_calculate_eq (self : OneWayANOVA.t) :
  one_way_wf self ->
  let gs := OneWayANOVA.groups self in
  let k := OneWayANOVA.k self in
  let n := OneWayANOVA.n_total self in
  let gmean := sumQ (map sumQ gs) / ofZ n in
  let ssb := sumQ (map (fun g => ofN (length g) * sqr (mean g - gmean)) gs) in
  let ssw := sumQ (map (fun g => sum_sq_dev g (mean g)) gs) in
  let msb := ssb / ofZ (k - 1) in
  let msw := if (0 <? n - k)%Z then ssw / ofZ (n - k) else 0 in
  OneWayANOVA.calculate sqrtQ f_sf self =
  Ok {| OneWayANOVA.SS_between := ssb;
        OneWayANOVA.SS_within := ssw;
        OneWayANOVA.SS_total := sumQ (map (fun g => sum_sq_dev g gmean) gs);
        OneWayANOVA.df_between := (k - 1)%Z;
        OneWayANOVA.df_within := (n - k)%Z;
        OneWayANOVA.df_total := (n - 1)%Z;
        OneWayANOVA.MS_between := msb;
        OneWayANOVA.MS_within := msw;
        OneWayANOVA.F := if Qlt_bool 0 msw then Fin (msb / msw) else PInf;
        OneWayANOVA.p_value :=
          f_sf (if Qlt_bool 0 msw then Fin (msb / msw) else PInf)
               (k - 1)%Z (n - k)%Z;
        OneWayANOVA.group_means := map mean gs;
        OneWayANOVA.group_se :=
          map (fun g => if (1 <? len g)%Z then std_err_val sqrtQ g else 0) gs;
        OneWayANOVA.group_names := OneWayANOVA._group_names self;
        OneWayANOVA.grand_mean := gmean;
        OneWayANOVA.residuals :=
          concat (map (fun g => map (fun x => x - mean g) g) gs) |}.
Proof.
  intros [[Hk Hne] [Ek En]]. cbv zeta.
  pose proof (total_len_ge _ Hne) as Hn.
  unfold OneWayANOVA.calculate.
  rewrite (mapM_ok np_mean mean)
    by (intros g Hg; apply np_mean_ok; rewrite Forall_forall in Hne; auto).
  cbn [bind].
  rewrite div_ok by (apply ofZ_nonzero; unfold len in *; lia). cbn [bind].
  rewrite !map_combine_map.
  rewrite div_ok by (apply ofZ_nonzero; unfold len in *; lia). cbn [bind].
  set (ssw := sumQ (map _ (OneWayANOVA.groups self))) at 1.
  assert (Hmsw :
    (if (0 <? OneWayANOVA.n_total self - OneWayANOVA.k self)%Z
     then div ssw (ofZ (OneWayANOVA.n_total self - OneWayANOVA.k self))
     else Ok 0) =
    Ok (if (0 <? OneWayANOVA.n_total self - OneWayANOVA.k self)%Z
        then ssw / ofZ (OneWayANOVA.n_total self - OneWayANOVA.k self)
        else 0)).
  { destruct (Z.ltb_spec 0 (OneWayANOVA.n_total self - OneWayANOVA.k self));
      [|reflexivity].
    apply div_ok, ofZ_nonzero. lia. }
  rewrite Hmsw. cbn [bind]. clear Hmsw.
  set (msw := if (0 <? _)%Z then _ else 0).
  set (msb := _ / ofZ (OneWayANOVA.k self - 1)).
  assert (HF :
    (if Qlt_bool 0 msw then q <- div msb msw ;; Ok (Fin q) else Ok PInf) =
    Ok (if Qlt_bool 0 msw then Fin (msb / msw) else PInf)).
  { destruct (Qlt_bool 0 msw) eqn:E; [|reflexivity].
    apply Qlt_bool_iff in E. rewrite div_ok; [reflexivity|].
    intro E0. rewrite E0 in E. now apply Qlt_irrefl in E. }
  rewrite HF. cbn [bind]. clear HF.
  rewrite (mapM_ok _ (fun g => if (1 <? len g)%Z then std_err_val sqrtQ g else 0)).
  - cbn [bind]. reflexivity.
  - intros g _. destruct (Z.ltb_spec 1 (len g)); [|reflexivity].
    now apply std_err_ok.
Qed.

Lemma one_way_calculate_ok (self : OneWayANOVA.t) :
  one_way_wf self -> exists r, OneWayANOVA.calculate sqrtQ f_sf self = Ok r.
Proof.
  intro H. eexists. apply (one_way_calculate_eq self H).
Qed.

(** The decomposition over a list of non-empty groups, around any centre. *)
Lemma ss_decomposition_groups (gs : list (list Q)) (c : Q) :
  Forall (fun g => g <> []) gs ->
  sumQ (map (fun g => sum_sq_dev g c) gs) ==
  sumQ (map (fun g => ofN (length g) * sqr (mean g - c)) gs)
  + sumQ (map (fun g => sum_sq_dev g (mean g)) gs).
Proof.
  induction 1 as [|g rest Hg _ IH]; cbn [map sumQ]; [ring|].
  rewrite IH, (sum_sq_dev_mean g c Hg). ring.
Qed.


Lemma residuals_sum_zero (gs : list (list Q)) :
  Forall (fun g => g <> []) gs ->
  sumQ (concat (map (fun g => map (fun x => x - mean g) g) gs)) == 0.
Proof.
  induction 1 as [|g rest Hg _ IH]; cbn [map concat]; [reflexivity|].
  rewrite sumQ_app, IH, sum_residuals, (mean_balance g Hg). ring.
Qed.

Lemma residuals_length (gs : list (list Q)) :
  len (concat (map (fun g => map (fun x => x - mean g) g) gs)) = total_len gs.
Proof.
  unfold len, total_len. induction gs as [|g rest IH]; cbn [map concat fold_right];
    [reflexivity|].
  rewrite length_app, length_map, Nat2Z.inj_add, IH. reflexivity.
Qed.

End OneWayTheory.

(** ** Sums over index ranges *)

Lemma bsum_S (n : nat) (f : nat -> Q) : bsum (S n) f == bsum n f + f n.
Proof.
  unfold bsum. rewrite seq_S, map_app, sumQ_app. simpl. ring.
Qed.

Lemma bsum_ext (n : nat) (f g : nat -> Q) :
  (forall i, (i < n)%nat -> f i == g i) -> bsum n f == bsum n g.
Proof.
  intro H. unfold bsum. apply sumQ_ext. intros i Hi.
  apply in_seq in Hi. apply H. lia.
Qed.

Lemma bsum_plus (n : nat) (f g : nat -> Q) :
  bsum n (fun i => f i + g i) == bsum n f + bsum n g.
Proof.
  unfold bsum. apply sumQ_plus.
Qed.

Lemma bsum_scale (n : nat) (c : Q) (f : nat -> Q) :
  bsum n (fun i => c * f i) == c * bsum n f.
Proof.
  unfold bsum. apply sumQ_scale.
Qed.

Lemma bsum_const (n : nat) (c : Q) : bsum n (fun _ => c) == ofN n * c.
Proof.
  induction n as [|n IH].
  - unfold bsum, ofN. simpl. ring.
  - rewrite bsum_S, IH, ofN_S. ring.
Qed.

Lemma bsum_zero (n : nat) (f : nat -> Q) :
  (forall i, (i < n)%nat -> f i == 0) -> bsum n f == 0.
Proof.
  intro H. rewrite (bsum_ext n f (fun _ => 0) H), bsum_const. ring.
Qed.

Lemma bsum_swap (n m : nat) (f : nat -> nat -> Q) :
  bsum n (fun i => bsum m (fun j => f i j)) ==
  bsum m (fun j => bsum n (fun i => f i j)).
Proof.
  induction n as [|n IH].
  - unfold bsum at 1 3. simpl. symmetry. apply bsum_zero. reflexivity.
  - rewrite bsum_S, IH, <- bsum_plus. apply bsum_ext.
    intros j _. rewrite bsum_S. reflexivity.
Qed.

(** A list sum as a sum over positions. *)
Lemma map_seq_nth {A B : Type} (f : A -> B) (d : A) (l : list A) :
  map (fun i => f (nth i l d)) (seq 0 (length l)) = map f l.
Proof.
  induction l as [|x xs IH]; [reflexivity|].
  cbn [length seq map nth]. f_equal.
  rewrite <- seq_shift, map_map. exact IH.
Qed.

Lemma sumQ_bsum {A : Type} (f : A -> Q) (d : A) (l : list A) :
  sumQ (map f l) = bsum (length l) (fun i => f (nth i l d)).
Proof.
  unfold bsum. now rewrite map_seq_nth.
Qed.

Lemma map_combine_map2 {A B C D : Type} (f : B * C -> D) (g : A -> B)
  (h : A -> C) (l : list A) :
  map f (combine (map g l) (map h l)) = map (fun x => f (g x, h x)) l.
Proof.
  induction l as [|x xs IH]; simpl; [reflexivity|]. now rewrite IH.
Qed.

(** Zipping a list with a table of per-position values. *)
Lemma map_combine_seq {A B C D : Type} (f : B * C -> D) (g : A -> B)
  (h : nat -> C) (d : A) (l : list A) (s : nat) :
  map f (combine (map g l) (map h (seq s (length l)))) =
  map (fun i => f (g (nth (i - s) l d), h i)) (seq s (length l)).
Proof.
  revert s. induction l as [|x xs IH]; intro s; [reflexivity|].
  cbn [length seq map combine]. rewrite Nat.sub_diag. cbn [nth]. f_equal.
  rewrite IH. apply map_ext_in. intros i Hi. apply in_seq in Hi.
  replace (i - s)%nat with (S (i - S s)) by lia. reflexivity.
Qed.

(** ** The two-way decomposition of a matrix of cell means *)

Section Matrix.

Variables (na nb : nat).
Variable c : nat -> nat -> Q.    (* cell means *)
Variable R : nat -> Q.           (* row means *)
Variable C : nat -> Q.           (* column means *)
Variable G : Q.                  (* grand mean *)

Hypothesis na_pos : (0 < na)%nat.
Hypothesis nb_pos : (0 < nb)%nat.
Hypothesis HR : forall i, (i < na)%nat -> ofN nb * R i == bsum nb (c i).
Hypothesis HC : forall j, (j < nb)%nat -> ofN na * C j == bsum na (fun i => c i j).
Hypothesis HG : ofN na * ofN nb * G == bsum na (fun i => bsum nb (c i)).

Let alpha (i : nat) : Q := R i - G.
Let beta (j : nat) : Q := C j - G.
Let delta (i j : nat) : Q := c i j - R i - C j + G.

Lemma sum_R : bsum na R == ofN na * G.
Proof.
  assert (Hb : ~ ofN nb == 0) by (apply ofN_nonzero; lia).
  assert (E : ofN nb * bsum na R == ofN nb * (ofN na * G)).
  { rewrite <- bsum_scale, (bsum_ext na _ _ HR), <- HG. ring. }
  apply Qmult_inj_l in E; assumption.
Qed.

Lemma sum_C : bsum nb C == ofN nb * G.
Proof.
  assert (Ha : ~ ofN na == 0) by (apply ofN_nonzero; lia).
  assert (E : ofN na * bsum nb C == ofN na * (ofN nb * G)).
  { rewrite <- bsum_scale, (bsum_ext nb _ _ HC), <- bsum_swap, <- HG. ring. }
  apply Qmult_inj_l in E; assumption.
Qed.

Lemma sum_alpha : bsum na alpha == 0.
Proof.
  unfold alpha.
  rewrite (bsum_ext na _ (fun i => R i + (-1) * G)) by (intros; ring).
  rewrite bsum_plus, bsum_const, sum_R. ring.
Qed.

Lemma sum_beta : bsum nb beta == 0.
Proof.
  unfold beta.
  rewrite (bsum_ext nb _ (fun j => C j + (-1) * G)) by (intros; ring).
  rewrite bsum_plus, bsum_const, sum_C. ring.
Qed.

Lemma delta_row (i : nat) : (i < na)%nat -> bsum nb (delta i) == 0.
Proof.
  intro Hi. unfold delta.
  rewrite (bsum_ext nb _ (fun j => (c i j + (-1) * C j) + (G - R i)))
    by (intros; ring).
  rewrite bsum_plus, bsum_plus, bsum_scale, bsum_const, sum_C, <- (HR i Hi). ring.
Qed.

Lemma delta_col (j : nat) : (j < nb)%nat -> bsum na (fun i => delta i j) == 0.
Proof.
  intro Hj. unfold delta.
  rewrite (bsum_ext na _ (fun i => (c i j + (-1) * R i) + (G - C j)))
    by (intros; ring).
  rewrite bsum_plus, bsum_plus, bsum_scale, bsum_const, sum_R, <- (HC j Hj). ring.
Qed.

Lemma row_expand (x : Q) (d : nat -> Q) (n : nat) :
  bsum n (fun j => sqr (x + beta j + d j)) ==
  ofN n * sqr x + bsum n (fun j => sqr (beta j)) + bsum n (fun j => sqr (d j))
  + 2 * x * bsum n beta + 2 * x * bsum n d
  + 2 * bsum n (fun j => beta j * d j).
Proof.
  induction n as [|n IH].
  - unfold bsum, ofN. simpl. ring.
  - rewrite !bsum_S, IH, ofN_S. unfold sqr. ring.
Qed.

Lemma cross_beta_delta :
  bsum na (fun i => bsum nb (fun j => beta j * delta i j)) == 0.
Proof.
  rewrite bsum_swap. apply bsum_zero. intros j Hj.
  rewrite bsum_scale, (delta_col j Hj). ring.
Qed.

Lemma matrix_decomposition :
  bsum na (fun i => bsum nb (fun j => sqr (c i j - G))) ==
  ofN nb * bsum na (fun i => sqr (R i - G))
  + ofN na * bsum nb (fun j => sqr (C j - G))
  + bsum na (fun i => bsum nb (fun j => sqr (c i j - R i - C j + G))).
Proof.
  rewrite (bsum_ext na _
    (fun i => (ofN nb * sqr (alpha i)
               + (bsum nb (fun j => sqr (beta j))
                  + bsum nb (fun j => sqr (delta i j))))
              + 2 * bsum nb (fun j => beta j * delta i j))).
  - rewrite !bsum_plus, bsum_scale, bsum_const, bsum_scale, cross_beta_delta.
    unfold alpha, beta, delta. ring.
  - intros i Hi.
    rewrite (bsum_ext nb _ (fun j => sqr (alpha i + beta j + delta i j)))
      by (intros; unfold alpha, beta, delta, sqr; ring).
    rewrite row_expand, sum_beta, (delta_row i Hi). ring.
Qed.

End Matrix.

(** ** TwoWayANOVA: construction *)

Lemma check_cells_spec (r : Z) (i j : nat) (cells : list (list Q)) :
  (TwoWayANOVA.check_cells r i j cells = Ok tt
   /\ Forall (fun cell => len cell = r) cells)
  \/ (exists msg, TwoWayANOVA.check_cells r i j cells = Raise (ValueError msg))
      /\ ~ Forall (fun cell => len cell = r) cells.
Proof.
  revert j. induction cells as [|c rest IH]; intro j; cbn [TwoWayANOVA.check_cells].
  - left. split; [reflexivity|constructor].
  - destruct (Z.eqb_spec (len c) r) as [E|E]; cbn [negb].
    + destruct (IH (S j)) as [[H1 H2]|[H1 H2]].
      * left. split; [assumption|now constructor].
      * right. split; [assumption|]. intro HF. inversion HF. contradiction.
    + right. split; [eauto|]. intro HF. inversion HF. contradiction.
Qed.

Lemma check_rows_spec (b r : Z) (i : nat) (rows : list (list (list Q))) :
  (TwoWayANOVA.check_rows b r i rows = Ok tt /\ rectangular b r rows)
  \/ (exists msg, TwoWayANOVA.check_rows b r i rows = Raise (ValueError msg))
      /\ ~ rectangular b r rows.
Proof.
  unfold rectangular.
  revert i. induction rows as [|row rest IH]; intro i; cbn [TwoWayANOVA.check_rows].
  - left. split; [reflexivity|constructor].
  - destruct (Z.eqb_spec (len row) b) as [E|E]; cbn [negb].
    + destruct (check_cells_spec r i 0 row) as [[H1 H2]|[[m H1] H2]];
        rewrite H1; cbn [bind].
      * destruct (IH (S i)) as [[H3 H4]|[H3 H4]].
        -- left. split; [assumption|]. constructor; [split|]; assumption.
        -- right. split; [assumption|]. intro HF. inversion HF. contradiction.
      * right. split; [eauto|]. intro HF. inversion HF as [|? ? [_ Hc] _].
        contradiction.
    + right. split; [eauto|]. intro HF. inversion HF as [|? ? [Hc _] _].
      contradiction.
Qed.

(** What [_validate] decides, given the dimensions read by [__init__]. *)
Lemma validate_spec (self : TwoWayANOVA.t) :
  (TwoWayANOVA._validate self = Ok tt
   /\ (2 <= TwoWayANOVA.a self)%Z /\ (2 <= TwoWayANOVA.b self)%Z
   /\ (2 <= TwoWayANOVA.r self)%Z
   /\ rectangular (TwoWayANOVA.b self) (TwoWayANOVA.r self) (TwoWayANOVA.data self))
  \/ (exists msg, TwoWayANOVA._validate self = Raise (ValueError msg))
      /\ ((TwoWayANOVA.a self < 2)%Z \/ (TwoWayANOVA.b self < 2)%Z
          \/ (TwoWayANOVA.r self < 2)%Z
          \/ ~ rectangular (TwoWayANOVA.b self) (TwoWayANOVA.r self)
                            (TwoWayANOVA.data self)).
Proof.
  unfold TwoWayANOVA._validate.
  destruct (Z.ltb_spec (TwoWayANOVA.a self) 2); [right; split; [eauto|lia]|].
  destruct (Z.ltb_spec (TwoWayANOVA.b self) 2); [right; split; [eauto|lia]|].
  destruct (Z.ltb_spec (TwoWayANOVA.r self) 2); [right; split; [eauto|lia]|].
  destruct (check_rows_spec (TwoWayANOVA.b self) (TwoWayANOVA.r self) 0
              (TwoWayANOVA.data self)) as [[H2 H3]|[H2 H3]].
  - left. tauto.
  - right. tauto.
Qed.

Lemma two_way_init_inv (data : list (list (list Q))) (fa fb : string)
  (self : TwoWayANOVA.t) :
  TwoWayANOVA.init data fa fb = Ok self ->
  TwoWayANOVA.data self = data /\ two_way_wf self.
Proof.
  unfold TwoWayANOVA.init. cbv zeta. intro H.
  destruct (getitem data 0) as [row0|]; [|discriminate]. cbn [bind] in H.
  destruct (getitem row0 0) as [cell00|]; [|discriminate]. cbn [bind] in H.
  set (s := TwoWayANOVA.mk _ _ _ _ _ _ _) in H.
  destruct (validate_spec s) as [[Hv Hw]|[[m Hv] _]]; rewrite Hv in H;
    cbn [bind] in H; [|discriminate].
  inversion H; subst self; clear H. subst s. cbn in Hw.
  unfold two_way_wf. cbn. tauto.
Qed.

(** A balanced grid with a, b, r >= 2 is accepted. *)
Lemma two_way_init_ok (data : list (list (list Q))) (fa fb : string) (b r : Z) :
  (2 <= len data)%Z -> (2 <= b)%Z -> (2 <= r)%Z -> rectangular b r data ->
  exists self, TwoWayANOVA.init data fa fb = Ok self.
Proof.
  intros Ha Hb Hr Hrect. unfold TwoWayANOVA.init. cbv zeta.
  destruct data as [|row0 rest]; [unfold len in Ha; simpl in Ha; lia|].
  cbn [getitem nth_error bind].
  pose proof Hrect as Hrect'. unfold rectangular in Hrect'.
  inversion Hrect' as [|? ? [Hb0 Hc0] Hrest]; subst.
  destruct row0 as [|cell00 row0']; [unfold len in Hb; simpl in Hb; lia|].
  cbn [getitem nth_error bind].
  inversion Hc0 as [|? ? Hr0 _]; subst.
  set (s := TwoWayANOVA.mk _ _ _ _ _ _ _).
  destruct (validate_spec s) as [[Hv _]|[_ Hbad]]; subst s.
  - rewrite Hv. cbn [bind]. eauto.
  - simpl TwoWayANOVA.a in Hbad. simpl TwoWayANOVA.b in Hbad.
    simpl TwoWayANOVA.r in Hbad. simpl TwoWayANOVA.data in Hbad.
    exfalso. destruct Hbad as [?|[?|[?|Hn]]]; [lia|lia|lia|].
    apply Hn. exact Hrect.
Qed.

(** ** TwoWayANOVA: calculate *)

Lemma f_ratio_ok (ms_x ms_e : Q) :
  TwoWayANOVA.f_ratio ms_x ms_e
  = Ok (if Qlt_bool 0 ms_e then Fin (ms_x / ms_e) else PInf).
Proof.
  unfold TwoWayANOVA.f_ratio. destruct (Qlt_bool 0 ms_e) eqn:E; [|reflexivity].
  apply Qlt_bool_iff in E. rewrite div_ok; [reflexivity|].
  intro E0. rewrite E0 in E. now apply Qlt_irrefl in E.
Qed.

Lemma concat_len (r : Z) (cells : list (list Q)) :
  Forall (fun cell => len cell = r) cells ->
  len (concat cells) = (len cells * r)%Z.
Proof.
  unfold len. induction 1 as [|c rest Hc _ IH]; cbn [concat length]; [reflexivity|].
  rewrite length_app, Nat2Z.inj_add, IH, Hc. lia.
Qed.

Lemma column_cells (b r : Z) (arr : list (list (list Q))) (j : nat) :
  rectangular b r arr -> (Z.of_nat j < b)%Z ->
  Forall (fun cell => len cell = r) (TwoWayANOVA.column arr j).
Proof.
  unfold rectangular, TwoWayANOVA.column. intros H Hj.
  induction H as [|row rest [Hb Hc] _ IH]; cbn [map]; constructor; [|exact IH].
  rewrite Forall_forall in Hc. apply Hc, nth_In. unfold len in Hb. lia.
Qed.

Lemma column_length (arr : list (list (list Q))) (j : nat) :
  length (TwoWayANOVA.column arr j) = length arr.
Proof.
  unfold TwoWayANOVA.column. apply length_map.
Qed.

Section TwoWayTheory.

Variable sqrtQ : Q -> Q.
Variable f_sf : xnum -> Z -> Z -> Q.
Hypothesis sqrtQ_pos : forall x, 0 < x -> 0 < sqrtQ x.

(** On a constructed object [calculate] returns, and this is what it
    returns. *)
Lemma two_way_calculate_eq (self : TwoWayANOVA.t) :
  two_way_wf self ->
  let a := TwoWayANOVA.a self in
  let b := TwoWayANOVA.b self in
  let r := TwoWayANOVA.r self in
  let arr := TwoWayANOVA.data self in
  let cols := seq 0 (Z.to_nat b) in
  let grand := sumQ (map (fun row => sumQ (map sumQ row)) arr) / ofZ (a * b * r) in
  let row_means := map (fun row => sumQ (map sumQ row) / ofZ (b * r)) arr in
  let col_means :=
    map (fun j => sumQ (map sumQ (TwoWayANOVA.column arr j)) / ofZ (a * r)) cols in
  let cell_means := map (map (fun cell => sumQ cell / ofZ r)) arr in
  let ss_a := ofZ b * ofZ r * sumQ (map (fun m => sqr (m - grand)) row_means) in
  let ss_b := ofZ a * ofZ r * sumQ (map (fun m => sqr (m - grand)) col_means) in
  let ss_ab :=
    ofZ r * sumQ (map (fun '(cms, rm) =>
                         sumQ (map (fun '(c, cm) => sqr (c - rm - cm + grand))
                                   (combine cms col_means)))
                      (combine cell_means row_means)) in
  let ss_e :=
    sumQ (map (fun '(row, cms) =>
                 sumQ (map (fun '(cell, c) => sum_sq_dev cell c) (combine row cms)))
              (combine arr cell_means)) in
  let df_a := (a - 1)%Z in
  let df_b := (b - 1)%Z in
  let df_ab := ((a - 1) * (b - 1))%Z in
  let df_e := (a * b * (r - 1))%Z in
  let ms_a := ss_a / ofZ df_a in
  let ms_b := ss_b / ofZ df_b in
  let ms_ab := ss_ab / ofZ df_ab in
  let ms_e := ss_e / ofZ df_e in
  let f_of := fun ms_x => if Qlt_bool 0 ms_e then Fin (ms_x / ms_e) else PInf in
  let groups_by_a := map (fun row => concat row) arr in
  let groups_by_b := map (fun j => concat (TwoWayANOVA.column arr j)) cols in
  TwoWayANOVA.calculate sqrtQ f_sf self =
  Ok {| TwoWayANOVA.SS_A := ss_a; TwoWayANOVA.SS_B := ss_b;
        TwoWayANOVA.SS_AB := ss_ab; TwoWayANOVA.SS_error := ss_e;
        TwoWayANOVA.SS_total :=
          sumQ (map (fun row => sumQ (map (fun cell => sum_sq_dev cell grand) row))
                    arr);
        TwoWayANOVA.df_A := df_a; TwoWayANOVA.df_B := df_b;
        TwoWayANOVA.df_AB := df_ab; TwoWayANOVA.df_error := df_e;
        TwoWayANOVA.df_total := (TwoWayANOVA.N self - 1)%Z;
        TwoWayANOVA.MS_A := ms_a; TwoWayANOVA.MS_B := ms_b;
        TwoWayANOVA.MS_AB := ms_ab; TwoWayANOVA.MS_error := ms_e;
        TwoWayANOVA.F_A := f_of ms_a; TwoWayANOVA.F_B := f_of ms_b;
        TwoWayANOVA.F_AB := f_of ms_ab;
        TwoWayANOVA.p_A := f_sf (f_of ms_a) df_a df_e;
        TwoWayANOVA.p_B := f_sf (f_of ms_b) df_b df_e;
        TwoWayANOVA.p_AB := f_sf (f_of ms_ab) df_ab df_e;
        TwoWayANOVA.cell_means := cell_means;
        TwoWayANOVA.row_means := row_means;
        TwoWayANOVA.col_means := col_means;
        TwoWayANOVA.grand_mean := grand;
        TwoWayANOVA.residuals :=
          concat (map (fun '(row, cms) =>
                         concat (map (fun '(cell, c) => map (fun x => x - c) cell)
                                     (combine row cms)))
                      (combine arr cell_means));
        TwoWayANOVA.groups_by_a := groups_by_a;
        TwoWayANOVA.groups_by_b := groups_by_b;
        TwoWayANOVA.a_names :=
          map (fun i => TwoWayANOVA.factor_a_name self ++ " " ++ str_nat (i + 1))%string
              (seq 0 (Z.to_nat a));
        TwoWayANOVA.b_names :=
          map (fun j => TwoWayANOVA.factor_b_name self ++ " " ++ str_nat (j + 1))%string
              cols;
        TwoWayANOVA.se_a := map (std_err_val sqrtQ) groups_by_a;
        TwoWayANOVA.se_b := map (std_err_val sqrtQ) groups_by_b |}.
Proof.
  intros (Ea & Ha & Hb & Hr & EN & Hrect). cbv zeta.
  unfold TwoWayANOVA.calculate. cbv zeta.
  rewrite div_ok by (apply ofZ_nonzero; nia). cbn [bind].
  rewrite (mapM_ok _ (fun row => sumQ (map sumQ row)
                                 / ofZ (TwoWayANOVA.b self * TwoWayANOVA.r self)))
    by (intros; apply div_ok, ofZ_nonzero; nia).
  cbn [bind].
  rewrite (mapM_ok _ (fun j => sumQ (map sumQ (TwoWayANOVA.column (TwoWayANOVA.data self) j))
                                 / ofZ (TwoWayANOVA.a self * TwoWayANOVA.r self)))
    by (intros; apply div_ok, ofZ_nonzero; nia).
  cbn [bind].
  rewrite (mapM_ok _ (map (fun cell => sumQ cell / ofZ (TwoWayANOVA.r self))))
    by (intros; apply mapM_ok; intros; apply div_ok, ofZ_nonzero; lia).
  cbn [bind].
  rewrite div_ok by (apply ofZ_nonzero; lia). cbn [bind].
  rewrite div_ok by (apply ofZ_nonzero; lia). cbn [bind].
  rewrite div_ok by (apply ofZ_nonzero; nia). cbn [bind].
  assert (Hdf : (0 <? TwoWayANOVA.a self * TwoWayANOVA.b self
                      * (TwoWayANOVA.r self - 1))%Z = true)
    by (apply Z.ltb_lt; nia).
  rewrite Hdf. rewrite div_ok by (apply ofZ_nonzero; nia). cbn [bind].
  rewrite !f_ratio_ok. cbn [bind].
  rewrite (mapM_ok _ (std_err_val sqrtQ)).
  2:{ intros g Hg. apply in_map_iff in Hg as [row [<- Hrow]].
      apply std_err_ok; [exact sqrtQ_pos|].
      unfold rectangular in Hrect. rewrite Forall_forall in Hrect.
      destruct (Hrect row Hrow) as [Hlen Hcells].
      rewrite (concat_len _ _ Hcells), Hlen. nia. }
  cbn [bind].
  rewrite (mapM_ok _ (std_err_val sqrtQ)).
  2:{ intros g Hg. apply in_map_iff in Hg as [j [<- Hj]]. apply in_seq in Hj.
      apply std_err_ok; [exact sqrtQ_pos|].
      rewrite (concat_len (TwoWayANOVA.r self)) by (apply (column_cells (TwoWayANOVA.b self)); [assumption|lia]).
      unfold len at 1. rewrite column_length. fold (len (TwoWayANOVA.data self)).
      rewrite <- Ea. nia. }
  cbn [bind]. reflexivity.
Qed.

Lemma two_way_calculate_ok (self : TwoWayANOVA.t) :
  two_way_wf self -> exists res, TwoWayANOVA.calculate sqrtQ f_sf self = Ok res.
Proof.
  intro H. eexists. apply (two_way_calculate_eq self H).
Qed.

End TwoWayTheory.

(** ** The two-way sums of squares, position by position *)

Lemma bsum_div (n : nat) (f : nat -> Q) (c : Q) :
  bsum n (fun i => f i / c) == bsum n f / c.
Proof.
  rewrite (bsum_ext n _ (fun i => / c * f i)) by (intros; unfold Qdiv; ring).
  rewrite bsum_scale. unfold Qdiv. ring.
Qed.

Lemma ofZ_mult (x y : Z) : ofZ (x * y) == ofZ x * ofZ y.
Proof.
  unfold ofZ. rewrite inject_Z_mult. reflexivity.
Qed.

Section Grid.

Variable arr : list (list (list Q)).
Variables (a b r : Z) (na nb : nat).

Hypothesis Ha : a = Z.of_nat na.
Hypothesis Hb : b = Z.of_nat nb.
Hypothesis Hlen : length arr = na.
Hypothesis Hrect : rectangular b r arr.
Hypothesis na_pos : (0 < na)%nat.
Hypothesis nb_pos : (0 < nb)%nat.
Hypothesis r_pos : (0 < r)%Z.

(** The quantities of [calculate]. *)
Let grand : Q := sumQ (map (fun row => sumQ (map sumQ row)) arr) / ofZ (a * b * r).
Let rowm (row : list (list Q)) : Q := sumQ (map sumQ row) / ofZ (b * r).
Let colm (j : nat) : Q := sumQ (map sumQ (TwoWayANOVA.column arr j)) / ofZ (a * r).
Let cellm (cell : list Q) : Q := sumQ cell / ofZ r.

(** The same, by position. *)
Let X (i j : nat) : list Q := nth j (nth i arr []) [].
Let cidx (i j : nat) : Q := cellm (X i j).
Let Ridx (i : nat) : Q := rowm (nth i arr []).

Lemma row_facts (i : nat) :
  (i < na)%nat ->
  length (nth i arr []) = nb
  /\ Forall (fun cell => len cell = r) (nth i arr []).
Proof.
  intro Hi. unfold rectangular in Hrect. rewrite Forall_forall in Hrect.
  destruct (Hrect (nth i arr [])) as [H1 H2]; [apply nth_In; lia|].
  split; [unfold len in H1; lia|exact H2].
Qed.

Lemma r_nonzero : ~ ofZ r == 0.
Proof.
  apply ofZ_nonzero. lia.
Qed.

Lemma a_nonzero : ~ ofZ a == 0.
Proof.
  apply ofZ_nonzero. lia.
Qed.

Lemma b_nonzero : ~ ofZ b == 0.
Proof.
  apply ofZ_nonzero. lia.
Qed.

Lemma ofN_na : ofN na = ofZ a.
Proof.
  unfold ofN, ofZ. now rewrite Ha.
Qed.

Lemma ofN_nb : ofN nb = ofZ b.
Proof.
  unfold ofN, ofZ. now rewrite Hb.
Qed.

Lemma row_sum (i : nat) :
  (i < na)%nat -> sumQ (map sumQ (nth i arr [])) = bsum nb (fun j => sumQ (X i j)).
Proof.
  intro Hi. destruct (row_facts i Hi) as [Hl _].
  rewrite (sumQ_bsum sumQ []), Hl. reflexivity.
Qed.

Lemma col_sum (j : nat) :
  sumQ (map sumQ (TwoWayANOVA.column arr j)) = bsum na (fun i => sumQ (X i j)).
Proof.
  unfold TwoWayANOVA.column. rewrite map_map.
  rewrite (sumQ_bsum _ []), Hlen. reflexivity.
Qed.

Lemma all_sum :
  sumQ (map (fun row => sumQ (map sumQ row)) arr) == bsum na (fun i => bsum nb (fun j => sumQ (X i j))).
Proof.
  rewrite (sumQ_bsum _ []), Hlen. apply bsum_ext. intros i Hi.
  now rewrite (row_sum i Hi).
Qed.

Lemma grid_HR (i : nat) : (i < na)%nat -> ofN nb * Ridx i == bsum nb (cidx i).
Proof.
  intro Hi. unfold Ridx, rowm, cidx, cellm.
  rewrite (row_sum i Hi), ofN_nb, ofZ_mult.
  rewrite (bsum_div nb (fun j => sumQ (X i j)) (ofZ r)).
  field. split; [apply r_nonzero|apply b_nonzero].
Qed.

Lemma grid_HC (j : nat) :
  (j < nb)%nat -> ofN na * colm j == bsum na (fun i => cidx i j).
Proof.
  intros _. unfold colm, cidx, cellm.
  rewrite col_sum, ofN_na, ofZ_mult.
  rewrite (bsum_div na (fun i => sumQ (X i j)) (ofZ r)).
  field. split; [apply r_nonzero|apply a_nonzero].
Qed.

Lemma grid_HG : ofN na * ofN nb * grand == bsum na (fun i => bsum nb (cidx i)).
Proof.
  unfold grand, cidx, cellm. rewrite all_sum, ofN_na, ofN_nb, !ofZ_mult.
  rewrite (bsum_ext na (fun i => bsum nb (fun j => sumQ (X i j) / ofZ r))
                       (fun i => bsum nb (fun j => sumQ (X i j)) / ofZ r))
    by (intros; apply bsum_div).
  rewrite bsum_div.
  field. repeat split; [apply r_nonzero|apply b_nonzero|apply a_nonzero].
Qed.

(** SS_A by position. *)
Lemma grid_ss_a :
  sumQ (map (fun m => sqr (m - grand)) (map rowm arr))
  = bsum na (fun i => sqr (Ridx i - grand)).
Proof.
  rewrite map_map, (sumQ_bsum _ []), Hlen. reflexivity.
Qed.

(** SS_B by position. *)
Lemma grid_ss_b :
  sumQ (map (fun m => sqr (m - grand)) (map colm (seq 0 nb)))
  = bsum nb (fun j => sqr (colm j - grand)).
Proof.
  rewrite map_map. reflexivity.
Qed.

(** SS_AB by position. *)
Lemma grid_ss_ab :
  sumQ (map (fun '(cms, rm) =>
               sumQ (map (fun '(c, cm) => sqr (c - rm - cm + grand))
                         (combine cms (map colm (seq 0 nb)))))
            (combine (map (map cellm) arr) (map rowm arr)))
  == bsum na (fun i => bsum nb (fun j => sqr (cidx i j - Ridx i - colm j + grand))).
Proof.
  rewrite map_combine_map2, (sumQ_bsum _ []), Hlen.
  apply bsum_ext. intros i Hi. destruct (row_facts i Hi) as [Hl _].
  cbv beta iota. rewrite <- Hl at 1.
  rewrite (map_combine_seq _ cellm colm []), Hl.
  apply bsum_ext. intros j _. rewrite Nat.sub_0_r. reflexivity.
Qed.

(** Within one cell: deviations from the grand mean against deviations
    from the cell mean. *)
Lemma cell_steiner (cell : list Q) :
  len cell = r ->
  sum_sq_dev cell grand
  == sum_sq_dev cell (cellm cell) + ofZ r * sqr (cellm cell - grand).
Proof.
  intro Hc.
  assert (Hne : cell <> []) by (intro E; subst cell; unfold len in Hc; simpl in Hc; lia).
  assert (Em : cellm cell = mean cell) by (unfold cellm, mean; now rewrite <- Hc).
  rewrite Em, (sum_sq_dev_mean cell grand Hne), <- Hc. reflexivity.
Qed.

(** SS_total against SS_error, by position. *)
Lemma grid_ss_t :
  sumQ (map (fun row => sumQ (map (fun cell => sum_sq_dev cell grand) row)) arr)
  == sumQ (map (fun '(row, cms) =>
                  sumQ (map (fun '(cell, c) => sum_sq_dev cell c) (combine row cms)))
               (combine arr (map (map cellm) arr)))
     + ofZ r * bsum na (fun i => bsum nb (fun j => sqr (cidx i j - grand))).
Proof.
  rewrite map_combine_map.
  rewrite <- bsum_scale.
  rewrite !(sumQ_bsum _ ([] : list (list Q)) arr), Hlen, <- bsum_plus.
  apply bsum_ext. intros i Hi. destruct (row_facts i Hi) as [Hl Hc].
  cbv beta iota. rewrite map_combine_map, <- bsum_scale.
  unfold cidx, X.
  rewrite !(sumQ_bsum _ ([] : list Q) (nth i arr [])), Hl, <- bsum_plus.
  apply bsum_ext. intros j Hj. apply cell_steiner.
  rewrite Forall_forall in Hc. apply Hc, nth_In. lia.
Qed.

(** The decomposition, on the expressions of [calculate]. *)
Lemma grid_decomposition :
  ofZ b * ofZ r * sumQ (map (fun m => sqr (m - grand)) (map rowm arr))
  + ofZ a * ofZ r * sumQ (map (fun m => sqr (m - grand)) (map colm (seq 0 nb)))
  + ofZ r * sumQ (map (fun '(cms, rm) =>
                         sumQ (map (fun '(c, cm) => sqr (c - rm - cm + grand))
                                   (combine cms (map colm (seq 0 nb)))))
                      (combine (map (map cellm) arr) (map rowm arr)))
  + sumQ (map (fun '(row, cms) =>
                 sumQ (map (fun '(cell, c) => sum_sq_dev cell c) (combine row cms)))
              (combine arr (map (map cellm) arr)))
  == sumQ (map (fun row => sumQ (map (fun cell => sum_sq_dev cell grand) row)) arr).
Proof.
  rewrite grid_ss_t, grid_ss_a, grid_ss_b, grid_ss_ab.
  rewrite (matrix_decomposition na nb cidx Ridx colm grand
             na_pos nb_pos grid_HR grid_HC grid_HG).
  rewrite ofN_na, ofN_nb. ring.
Qed.

End Grid.

(** ** Comprehensions that can raise *)

Lemma mapM_Forall2 {A B : Type} (f : A -> result B) (l : list A) (l' : list B) :
  mapM f l = Ok l' -> Forall2 (fun x y => f x = Ok y) l l'.
Proof.
  revert l'. induction l as [|x xs IH]; intros l' H; cbn [mapM] in H.
  - inversion H. constructor.
  - destruct (f x) as [y|] eqn:Ef; [|discriminate]. cbn [bind] in H.
    destruct (mapM f xs) as [ys|]; [|discriminate]. cbn [bind] in H.
    inversion H. constructor; [assumption|now apply IH].
Qed.

Lemma mapM_exists {A B : Type} (f : A -> result B) (l : list A) :
  (forall x, In x l -> exists y, f x = Ok y) -> exists l', mapM f l = Ok l'.
Proof.
  induction l as [|x xs IH]; intro H; cbn [mapM]; [eauto|].
  destruct (H x (or_introl eq_refl)) as [y ->]. cbn [bind].
  destruct IH as [ys ->]; [intros z Hz; apply H; now right|].
  cbn [bind]. eauto.
Qed.

Lemma mapM_ext_in {A B : Type} (f g : A -> result B) (l : list A) :
  (forall x, In x l -> f x = g x) -> mapM f l = mapM g l.
Proof.
  induction l as [|x xs IH]; intro H; cbn [mapM]; [reflexivity|].
  rewrite (H x (or_introl eq_refl)), IH; [reflexivity|].
  intros y Hy. apply H. now right.
Qed.

Lemma Forall2_map_eq {A B C : Type} (R : A -> B -> Prop) (p : B -> C) (g : A -> C)
  (l : list A) (l' : list B) :
  Forall2 R l l' -> (forall x y, In x l -> R x y -> p y = g x) ->
  map p l' = map g l.
Proof.
  induction 1 as [|x y xs ys Hxy _ IH]; intro H; cbn [map]; [reflexivity|].
  rewrite (H x y (or_introl eq_refl) Hxy), IH; [reflexivity|].
  intros x' y' Hin. apply H. now right.
Qed.

Lemma Forall2_weaken {A B : Type} (R R' : A -> B -> Prop) (l : list A) (l' : list B) :
  Forall2 R l l' -> (forall x y, In x l -> R x y -> R' x y) -> Forall2 R' l l'.
Proof.
  induction 1 as [|x y xs ys Hxy _ IH]; intro H; constructor.
  - apply H; [now left|assumption].
  - apply IH. intros x' y' Hin. apply H. now right.
Qed.


Lemma getitem_inv {A : Type} (l : list A) (i : nat) (x : A) :
  getitem l i = Ok x -> nth_error l i = Some x.
Proof.
  unfold getitem. destruct (nth_error l i); intro H; inversion H. reflexivity.
Qed.

(** ** The pairs visited by the post-hoc loops *)








(** ** Post-hoc procedures on a valid group set *)



Lemma scheffe_error_term_recomputed (groups : list (list Q))
  (ms : option Q) (df : option Z) :
  Forall (fun g => g <> []) groups ->
  ms = None \/ df = None ->
  scheffe_error_term groups ms df = Ok (pooled_term groups).
Proof.
  intros groups_nonempty H.
  assert (E : scheffe_error_term groups ms df = scheffe_error_term groups None None)
    by (destruct H; subst; [reflexivity|destruct ms; reflexivity]).
  rewrite E. unfold scheffe_error_term, pooled_term, pooled_ss.
  rewrite (mapM_ok _ (fun g => sum_sq_dev g (mean g))).
  - cbn [bind]. fold (total_len groups).
    destruct (Z.ltb_spec 0 (total_len groups - len groups)); [|reflexivity].
    rewrite div_ok by (apply ofZ_nonzero; lia). reflexivity.
  - intros g Hg. rewrite Forall_forall in groups_nonempty.
    rewrite np_mean_ok by auto. reflexivity.
Qed.

Section PostHocTheory.

Variable sqrtQ : Q -> Q.
Variable f_sf : xnum -> Z -> Z -> Q.
Variable ttest_ind : list Q -> list Q -> Q * Q.
Variables tukey_pvalue tukey_ci_low tukey_ci_high : list (list Q) -> nat -> nat -> Q.

Variable groups : list (list Q).
Variable names : list string.

Hypothesis groups_nonempty : Forall (fun g => g <> []) groups.
Hypothesis names_length : length names = length groups.







End PostHocTheory.

(** ** Claims about the one-way engine *)

Lemma test_sqrt_pos (x : Q) : 0 < x -> 0 < test_sqrt x.
Proof.
  intro H. exact H.
Qed.






(** C4. For an input of a supported shape (a mapping or a sequence of
    groups), [OneWayANOVA] construction raises a validation error
    ([ValueError]) exactly when there are fewer than 2 groups, or some group
    is empty, or a supplied [group_names] has a length different from the
    number of groups, and it raises nothing else; once construction has
    succeeded, [calculate] returns a result. *)
Theorem one_way_validation_at_construction
  (sqrtQ : Q -> Q) (f_sf : xnum -> Z -> Z -> Q)
  (sqrtQ_pos : forall x, 0 < x -> 0 < sqrtQ x)
  (data : OneWayANOVA.data_t) (names : option (list string)) :
  data <> OneWayANOVA.OtherData ->
  ((exists msg, OneWayANOVA.init data names = Raise (ValueError msg))
   <-> ((length (groups_of data) < 2)%nat
        \/ Exists (fun g => g = []) (groups_of data)
        \/ exists ns, names = Some ns /\ length ns <> length (groups_of data)))
  /\ (forall e, OneWayANOVA.init data names = Raise e -> exists msg, e = ValueError msg)
  /\ (forall self, OneWayANOVA.init data names = Ok self ->
      exists res, OneWayANOVA.calculate sqrtQ f_sf self = Ok res).
Proof.
  intro Hd. split; [|split].
  - split.
    + intros [msg Hr].
      destruct (Nat.lt_ge_cases (length (groups_of data)) 2) as [Hlt|Hge];
        [now left|].
      destruct (nonempty_dec (groups_of data)) as [Hne|He]; [|right; now left].
      destruct names as [ns|].
      * destruct (Nat.eq_dec (length ns) (length (groups_of data))) as [E|E].
        -- destruct (init_ok data (Some ns) Hd (conj Hge Hne)) as [self [Hs _]].
           { intros ns' E'. inversion E'; subst. exact E. }
           rewrite Hs in Hr. discriminate.
        -- right. right. exists ns. now split.
      * destruct (init_ok data None Hd (conj Hge Hne)) as [self [Hs _]].
        { intros ns' E'. discriminate. }
        rewrite Hs in Hr. discriminate.
    + intro Hbad.
      destruct (OneWayANOVA.init data names) as [self|e] eqn:Hi.
      * exfalso. destruct (init_inv _ _ _ Hi) as (_ & Hg & [[Hk Hne] _] & _ & Hn).
        rewrite Hg in Hk, Hne.
        destruct Hbad as [Hlt|[He|[ns [En Hlen]]]].
        -- lia.
        -- exact (nonempty_not_both _ Hne He).
        -- exact (Hlen (Hn ns En)).
      * destruct (init_raises_only_ValueError _ _ _ Hi) as [msg ->]. eauto.
  - apply init_raises_only_ValueError.
  - intros self Hi. destruct (init_inv _ _ _ Hi) as (_ & _ & Hwf & _).
    now apply one_way_calculate_ok.
Qed.

Lemma one_way_validation_at_construction_witness :
  test_data <> OneWayANOVA.OtherData
  /\ ((exists msg, OneWayANOVA.init test_data None = Raise (ValueError msg))
      <-> ((length (groups_of test_data) < 2)%nat
           \/ Exists (fun g => g = []) (groups_of test_data)
           \/ exists ns : list string,
                None = Some ns /\ length ns <> length (groups_of test_data)))
  /\ (forall e, OneWayANOVA.init test_data None = Raise e ->
      exists msg, e = ValueError msg)
  /\ (forall self, OneWayANOVA.init test_data None = Ok self ->
      exists res, OneWayANOVA.calculate test_sqrt test_sf self = Ok res).
Proof.
  assert (H : test_data <> OneWayANOVA.OtherData) by discriminate.
  split; [exact H|].
  exact (one_way_validation_at_construction test_sqrt test_sf test_sqrt_pos
           test_data None H).
Defined.

(** ** Claims about the two-way engine *)



Lemma grid_size (b r : Z) (data : list (list (list Q))) :
  rectangular b r data -> len (concat (concat data)) = (len data * b * r)%Z.
Proof.
  intro H.
  assert (G : len (concat data) = (len data * b)%Z
              /\ Forall (fun cell => len cell = r) (concat data)).
  { unfold rectangular in H. induction H as [|row rest [Hb Hc] _ [IH1 IH2]].
    - split; [reflexivity|constructor].
    - cbn [concat]. split.
      + unfold len in *. rewrite length_app. cbn [length]. lia.
      + apply Forall_app. now split. }
  destruct G as [G1 G2]. rewrite (concat_len r _ G2), G1. reflexivity.
Qed.

(** C3. For every balanced two-way grid that passes construction, with a
    rows, b cells per row and r replicates per cell, [calculate] returns
    df_A = a-1, df_B = b-1, df_AB = (a-1)(b-1), df_error = ab(r-1) and
    df_total = N-1 where N = abr is the number of observations, and
    df_A + df_B + df_AB + df_error = df_total as integers. *)
Theorem two_way_degrees_of_freedom
  (sqrtQ : Q -> Q) (f_sf : xnum -> Z -> Z -> Q)
  (sqrtQ_pos : forall x, 0 < x -> 0 < sqrtQ x)
  (data : list (list (list Q))) (fa fb : string) (self : TwoWayANOVA.t) :
  TwoWayANOVA.init data fa fb = Ok self ->
  let a := TwoWayANOVA.a self in
  let b := TwoWayANOVA.b self in
  let r := TwoWayANOVA.r self in
  let N := TwoWayANOVA.N self in
  a = len data /\ rectangular b r data
  /\ N = (a * b * r)%Z /\ N = len (concat (concat data))
  /\ exists res,
       TwoWayANOVA.calculate sqrtQ f_sf self = Ok res
       /\ TwoWayANOVA.df_A res = (a - 1)%Z
       /\ TwoWayANOVA.df_B res = (b - 1)%Z
       /\ TwoWayANOVA.df_AB res = ((a - 1) * (b - 1))%Z
       /\ TwoWayANOVA.df_error res = (a * b * (r - 1))%Z
       /\ TwoWayANOVA.df_total res = (N - 1)%Z
       /\ (TwoWayANOVA.df_A res + TwoWayANOVA.df_B res + TwoWayANOVA.df_AB res
           + TwoWayANOVA.df_error res)%Z = TwoWayANOVA.df_total res.
Proof.
  intro Hinit. destruct (two_way_init_inv _ _ _ _ Hinit) as [Hd Hwf]. cbv zeta.
  pose proof (two_way_calculate_eq sqrtQ f_sf sqrtQ_pos self Hwf) as Hc.
  cbv zeta in Hc.
  destruct Hwf as (Ea & Ha & Hb & Hr & EN & Hrect). rewrite Hd in Ea, Hrect.
  repeat (split; [first [assumption | idtac]|]).
  - rewrite (grid_size _ _ _ Hrect), EN, Ea. reflexivity.
  - eexists. split; [exact Hc|].
    cbn [TwoWayANOVA.df_A TwoWayANOVA.df_B TwoWayANOVA.df_AB
         TwoWayANOVA.df_error TwoWayANOVA.df_total].
    repeat split. rewrite EN. ring.
Qed.

Lemma two_way_degrees_of_freedom_witness :
  TwoWayANOVA.init grid_2x3 "Factor A" "Factor B" = Ok grid_self
  /\ exists res,
       TwoWayANOVA.calculate test_sqrt test_sf grid_self = Ok res
       /\ TwoWayANOVA.df_A res = 1%Z
       /\ TwoWayANOVA.df_B res = 2%Z
       /\ TwoWayANOVA.df_AB res = 2%Z
       /\ TwoWayANOVA.df_error res = 12%Z
       /\ TwoWayANOVA.df_total res = 17%Z.
Proof.
  split; [reflexivity|].
  destruct (two_way_degrees_of_freedom test_sqrt test_sf test_sqrt_pos
              grid_2x3 "Factor A" "Factor B" grid_self eq_refl)
    as (_ & _ & _ & _ & res & Hc & HA & HB & HAB & HE & HT & _).
  exists res. repeat split; assumption.
Defined.

(** What construction does once the dimensions could be read off the first
    row and its first cell: too few replicates or a grid that is not
    rectangular is a [ValueError]. *)
Lemma two_way_validation (data : list (list (list Q))) (fa fb : string)
  (row0 : list (list Q)) (cell00 : list Q) :
  nth_error data 0 = Some row0 -> nth_error row0 0 = Some cell00 ->
  (len cell00 < 2)%Z \/ ~ rectangular (len row0) (len cell00) data ->
  exists msg, TwoWayANOVA.init data fa fb = Raise (ValueError msg).
Proof.
  intros H0 H00 Hbad. unfold TwoWayANOVA.init, getitem. cbv zeta.
  rewrite H0. cbn [bind]. rewrite H00. cbn [bind].
  set (s := TwoWayANOVA.mk _ _ _ _ _ _ _).
  destruct (validate_spec s) as [[_ Hv]|[[msg Hv] _]]; subst s.
  - exfalso. cbn in Hv. destruct Hv as (_ & _ & Hr & Hrect).
    destruct Hbad as [Hlt|Hn]; [lia|exact (Hn Hrect)].
  - rewrite Hv. cbn [bind]. eauto.
Qed.

(** With at least two levels on each factor, fewer than two replicates in the
    first cell is reported with the replicate message. *)
Lemma two_way_single_replicate (data : list (list (list Q))) (fa fb : string)
  (row0 : list (list Q)) (cell00 : list Q) :
  nth_error data 0 = Some row0 -> nth_error row0 0 = Some cell00 ->
  (2 <= len data)%Z -> (2 <= len row0)%Z -> (len cell00 < 2)%Z ->
  TwoWayANOVA.init data fa fb
  = Raise (ValueError
      "Two-way ANOVA with replication requires at least 2 replicates per cell.").
Proof.
  intros H0 H00 Ha Hb Hr. unfold TwoWayANOVA.init, getitem. cbv zeta.
  rewrite H0. cbn [bind]. rewrite H00. cbn [bind].
  unfold TwoWayANOVA._validate.
  cbn [TwoWayANOVA.a TwoWayANOVA.b TwoWayANOVA.r].
  destruct (Z.ltb_spec (len data) 2); [lia|].
  destruct (Z.ltb_spec (len row0) 2); [lia|].
  destruct (Z.ltb_spec (len cell00) 2); [|lia].
  reflexivity.
Qed.

(** C5 (the code departs from it).  The grid [[], [[1, 2], [3, 4]]] is not
    rectangular: its rows have 0 and 2 cells.  Construction does fail on it,
    but with the [IndexError] of [len(data[0][0])], raised while the
    dimensions are read and before [_validate] runs, not with a validation
    error. *)
Theorem two_way_empty_first_row_IndexError :
  (forall b r, ~ rectangular b r ragged_grid)
  /\ TwoWayANOVA.init ragged_grid "Factor A" "Factor B" = Raise IndexError
  /\ forall msg,
       TwoWayANOVA.init ragged_grid "Factor A" "Factor B" <> Raise (ValueError msg).
Proof.
  split; [|split].
  - intros b r H. unfold rectangular, ragged_grid in H.
    inversion H as [|? ? [Hb0 _] Hrest]; subst.
    inversion Hrest as [|? ? [Hb1 _] _]; subst.
    unfold len in *. simpl in *. lia.
  - reflexivity.
  - intros msg H. discriminate.
Qed.

(** ** Claims about the post-hoc suite *)

Lemma scheffe_error_term_ok (groups : list (list Q)) (ms : option Q) (df : option Z) :
  Forall (fun g => g <> []) groups ->
  exists ms' df', scheffe_error_term groups ms df = Ok (ms', df').
Proof.
  intro Hne. destruct ms as [m|]; [destruct df as [d|]|].
  - exists m, d. reflexivity.
  - exists (fst (pooled_term groups)), (snd (pooled_term groups)).
    rewrite (scheffe_error_term_recomputed groups _ _ Hne) by auto.
    now destruct (pooled_term groups).
  - exists (fst (pooled_term groups)), (snd (pooled_term groups)).
    rewrite (scheffe_error_term_recomputed groups _ _ Hne) by auto.
    now destruct (pooled_term groups).
Qed.







(** ** Degenerate cases *)




(** ** The scenarios of the test suite, run on the model *)

Example too_few_groups_rejected :
  OneWayANOVA.init (OneWayANOVA.SeqData [[1; 2; 3]]) None
  = Raise (ValueError "ANOVA requires at least 2 groups.").
Proof.
  reflexivity.
Qed.

Example single_replicate_rejected :
  TwoWayANOVA.init_default [[[10]; [20]]; [[15]; [25]]]
  = Raise (ValueError
      "Two-way ANOVA with replication requires at least 2 replicates per cell.").
Proof.
  reflexivity.
Qed.

Example additive_grid_has_no_interaction :
  exists res,
    (self <- TwoWayANOVA.init_default
               [ [[10; 10; 10]; [13; 13; 13]; [16; 16; 16]];
                 [[15; 15; 15]; [18; 18; 18]; [21; 21; 21]] ] ;;
     TwoWayANOVA.calculate test_sqrt test_sf self) = Ok res
    /\ TwoWayANOVA.SS_AB res == 0.
Proof.
  eexists. split; [vm_compute; reflexivity|]. vm_compute. reflexivity.
Qed.

Example crossed_grid_is_pure_interaction :
  exists res,
    (self <- TwoWayANOVA.init_default
               [ [[10; 10; 10]; [20; 20; 20]];
                 [[20; 20; 20]; [10; 10; 10]] ] ;;
     TwoWayANOVA.calculate test_sqrt test_sf self) = Ok res
    /\ TwoWayANOVA.SS_A res == 0 /\ TwoWayANOVA.SS_B res == 0
    /\ 0 < TwoWayANOVA.SS_AB res
    /\ TwoWayANOVA.F_A res = PInf.
Proof.
  eexists. split; [vm_compute; reflexivity|].
  repeat split; vm_compute; reflexivity.
Qed.

(** * Further properties of the engines *)

(** ** Squares and their sums *)

Lemma sqr_nonneg (x : Q) : 0 <= sqr x.
Proof.
  unfold sqr. nra.
Qed.


Lemma Qdiv_nonneg (x y : Q) : 0 <= x -> 0 < y -> 0 <= x / y.
Proof.
  intros Hx Hy. unfold Qdiv. apply Qmult_le_0_compat; [assumption|].
  apply Qinv_le_0_compat. now apply Qlt_le_weak.
Qed.





Lemma pooled_ss_nonneg (gs : list (list Q)) : 0 <= pooled_ss gs.
Proof.
  unfold pooled_ss. apply sumQ_nonneg, Forall_forall. intros y Hy.
  apply in_map_iff in Hy as [g [<- _]]. apply sum_sq_dev_nonneg.
Qed.





(** ** More on the one-way engine *)

Lemma init_names (data : OneWayANOVA.data_t) (names : option (list string))
  (self : OneWayANOVA.t) :
  OneWayANOVA.init data names = Ok self ->
  OneWayANOVA._group_names self
  = match names with
    | Some ns => ns
    | None =>
        match data with
        | OneWayANOVA.DictData d => map fst d
        | OneWayANOVA.SeqData l =>
            map (fun i => "Group " ++ str_nat (i + 1))%string (seq 0 (length l))
        | OneWayANOVA.OtherData => []
        end
    end.
Proof.
  unfold OneWayANOVA.init. intro H.
  destruct data as [d|l|]; cbn [OneWayANOVA.standardize bind] in H;
    [| |discriminate].
  all: destruct names as [ns|]; cbn [bind] in H.
  all: repeat match type of H with
       | context [if ?c then _ else _] =>
           destruct c; cbn [bind] in H; try discriminate
       end.
  all: match type of H with
       | context [OneWayANOVA.check_nonempty 0 ?gs] =>
           destruct (OneWayANOVA.check_nonempty 0 gs); cbn [bind] in H;
           [inversion H; reflexivity|discriminate]
       end.
Qed.

(** X1. On a constructed one-way object with k groups and N observations,
    [calculate] returns df_between = k - 1, df_within = N - k and
    df_total = N - 1; they add up, df_between + df_within = df_total, and
    df_between >= 1, df_within >= 0. *)
Theorem one_way_degrees_of_freedom
  (sqrtQ : Q -> Q) (f_sf : xnum -> Z -> Z -> Q)
  (sqrtQ_pos : forall x, 0 < x -> 0 < sqrtQ x)
  (data : OneWayANOVA.data_t) (names : option (list string))
  (self : OneWayANOVA.t) :
  OneWayANOVA.init data names = Ok self ->
  let k := len (groups_of data) in
  let n := total_len (groups_of data) in
  exists res,
    OneWayANOVA.calculate sqrtQ f_sf self = Ok res
    /\ OneWayANOVA.df_between res = (k - 1)%Z
    /\ OneWayANOVA.df_within res = (n - k)%Z
    /\ OneWayANOVA.df_total res = (n - 1)%Z
    /\ (OneWayANOVA.df_between res + OneWayANOVA.df_within res)%Z
       = OneWayANOVA.df_total res
    /\ (1 <= OneWayANOVA.df_between res)%Z
    /\ (0 <= OneWayANOVA.df_within res)%Z.
Proof.
  intro Hinit. destruct (init_inv _ _ _ Hinit) as (_ & Hg & Hwf & _). cbv zeta.
  pose proof (one_way_calculate_eq sqrtQ f_sf sqrtQ_pos self Hwf) as Hc.
  cbv zeta in Hc. eexists. split; [exact Hc|].
  destruct Hwf as [[Hk Hne] [Ek En]].
  pose proof (total_len_ge _ Hne) as Hge.
  cbn [OneWayANOVA.df_between OneWayANOVA.df_within OneWayANOVA.df_total].
  rewrite Ek, En, Hg in *. unfold len in *. repeat split; lia.
Qed.

Lemma one_way_degrees_of_freedom_witness :
  OneWayANOVA.init test_data None = Ok test_self
  /\ exists res,
       OneWayANOVA.calculate test_sqrt test_sf test_self = Ok res
       /\ OneWayANOVA.df_between res = 2%Z
       /\ OneWayANOVA.df_within res = 9%Z
       /\ OneWayANOVA.df_total res = 11%Z.
Proof.
  split; [reflexivity|].
  destruct (one_way_degrees_of_freedom test_sqrt test_sf test_sqrt_pos
              test_data None test_self eq_refl)
    as (res & Hc & H1 & H2 & H3 & _).
  exists res. repeat split; assumption.
Defined.





(** X4. The sums of squares and mean squares of [OneWayANOVA.calculate] are
    never negative, and neither SS_between nor SS_within exceeds SS_total. *)
Theorem one_way_sums_of_squares_nonnegative
  (sqrtQ : Q -> Q) (f_sf : xnum -> Z -> Z -> Q)
  (sqrtQ_pos : forall x, 0 < x -> 0 < sqrtQ x)
  (data : OneWayANOVA.data_t) (names : option (list string))
  (self : OneWayANOVA.t) :
  OneWayANOVA.init data names = Ok self ->
  exists res,
    OneWayANOVA.calculate sqrtQ f_sf self = Ok res
    /\ 0 <= OneWayANOVA.SS_between res
    /\ 0 <= OneWayANOVA.SS_within res
    /\ 0 <= OneWayANOVA.SS_total res
    /\ OneWayANOVA.SS_between res <= OneWayANOVA.SS_total res
    /\ OneWayANOVA.SS_within res <= OneWayANOVA.SS_total res
    /\ 0 <= OneWayANOVA.MS_between res
    /\ 0 <= OneWayANOVA.MS_within res.
Proof.
  intro Hinit. destruct (init_inv _ _ _ Hinit) as (_ & Hg & Hwf & _).
  pose proof (one_way_calculate_eq sqrtQ f_sf sqrtQ_pos self Hwf) as Hc.
  cbv zeta in Hc. eexists. split; [exact Hc|].
  destruct Hwf as [[Hk Hne] [Ek En]].
  cbn [OneWayANOVA.SS_between OneWayANOVA.SS_within OneWayANOVA.SS_total
       OneWayANOVA.MS_between OneWayANOVA.MS_within].
  set (c := sumQ (map sumQ (OneWayANOVA.groups self)) / ofZ (OneWayANOVA.n_total self)).
  pose proof (ss_decomposition_groups (OneWayANOVA.groups self) c Hne) as E.
  fold (pooled_ss (OneWayANOVA.groups self)) in *.
  pose proof (pooled_ss_nonneg (OneWayANOVA.groups self)) as Hw.
  assert (Hb : 0 <= sumQ (map (fun g => ofN (length g) * sqr (mean g - c))
                              (OneWayANOVA.groups self))).
  { apply sumQ_nonneg, Forall_forall. intros y Hy.
    apply in_map_iff in Hy as [g [<- _]].
    apply Qmult_le_0_compat; [|apply sqr_nonneg].
    unfold ofN, Qle. simpl. lia. }
  set (ssb := sumQ (map (fun g => ofN (length g) * sqr (mean g - c)) _)) in *.
  set (sst := sumQ (map (fun g => sum_sq_dev g c) _)) in *.
  set (ssw := pooled_ss _) in *.
  repeat split; try lra.
  - apply Qdiv_nonneg; [exact Hb|apply ofZ_pos; unfold len in Ek; lia].
  - destruct (Z.ltb_spec 0 (OneWayANOVA.n_total self - OneWayANOVA.k self));
      [|apply Qle_refl].
    apply Qdiv_nonneg; [exact Hw|now apply ofZ_pos].
Qed.

Lemma one_way_sums_of_squares_nonnegative_witness :
  OneWayANOVA.init test_data None = Ok test_self
  /\ exists res,
       OneWayANOVA.calculate test_sqrt test_sf test_self = Ok res
       /\ 0 <= OneWayANOVA.SS_between res
       /\ OneWayANOVA.SS_within res <= OneWayANOVA.SS_total res.
Proof.
  split; [reflexivity|].
  destruct (one_way_sums_of_squares_nonnegative test_sqrt test_sf test_sqrt_pos
              test_data None test_self eq_refl)
    as (res & Hc & H1 & _ & _ & _ & H2 & _).
  exists res. repeat split; assumption.
Defined.

(** X5. The result of [OneWayANOVA.calculate] carries one name, one mean and
    one standard error per group.  The names are the caller's [group_names]
    when given, else the keys of a mapping in insertion order, else
    "Group 1", "Group 2", ... for a sequence. *)
Theorem one_way_result_shape
  (sqrtQ : Q -> Q) (f_sf : xnum -> Z -> Z -> Q)
  (sqrtQ_pos : forall x, 0 < x -> 0 < sqrtQ x)
  (data : OneWayANOVA.data_t) (names : option (list string))
  (self : OneWayANOVA.t) :
  OneWayANOVA.init data names = Ok self ->
  exists res,
    OneWayANOVA.calculate sqrtQ f_sf self = Ok res
    /\ OneWayANOVA.group_names res
       = match names with
         | Some ns => ns
         | None =>
             match data with
             | OneWayANOVA.DictData d => map fst d
             | OneWayANOVA.SeqData l =>
                 map (fun i => "Group " ++ str_nat (i + 1))%string
                     (seq 0 (length l))
             | OneWayANOVA.OtherData => []
             end
         end
    /\ length (OneWayANOVA.group_names res) = length (groups_of data)
    /\ length (OneWayANOVA.group_means res) = length (groups_of data)
    /\ length (OneWayANOVA.group_se res) = length (groups_of data)
    /\ Forall2 (fun g se => length g = 1%nat -> se = 0)
               (groups_of data) (OneWayANOVA.group_se res).
Proof.
  intro Hinit. destruct (init_inv _ _ _ Hinit) as (_ & Hg & Hwf & Hl & _).
  pose proof (one_way_calculate_eq sqrtQ f_sf sqrtQ_pos self Hwf) as Hc.
  cbv zeta in Hc. eexists. split; [exact Hc|].
  cbn [OneWayANOVA.group_names OneWayANOVA.group_means OneWayANOVA.group_se].
  pose proof (init_names _ _ _ Hinit) as Hnm. rewrite Hnm in Hl |- *.
  rewrite Hg, !length_map.
  split; [reflexivity|]. split; [exact Hl|]. split; [reflexivity|].
  split; [reflexivity|].
  clear. induction (groups_of data) as [|g rest IH]; cbn [map]; constructor;
    [|exact IH].
  intro H1. unfold len. rewrite H1. reflexivity.
Qed.

Lemma one_way_result_shape_witness :
  OneWayANOVA.init (OneWayANOVA.DictData
                      [("Control", [1; 2; 3]); ("Treatment", [4; 5; 6])]%string)
                   None
  = Ok dict_self
  /\ exists res,
       OneWayANOVA.calculate test_sqrt test_sf dict_self = Ok res
       /\ OneWayANOVA.group_names res = ["Control"; "Treatment"]%string.
Proof.
  split; [reflexivity|].
  destruct (one_way_result_shape test_sqrt test_sf test_sqrt_pos
              (OneWayANOVA.DictData
                 [("Control", [1; 2; 3]); ("Treatment", [4; 5; 6])]%string)
              None dict_self eq_refl)
    as (res & Hc & Hn & _).
  exists res. split; [exact Hc|exact Hn].
Defined.

Lemma check_nonempty_first_empty (i : nat) (pre post : list (list Q)) :
  Forall (fun g => g <> []) pre ->
  OneWayANOVA.check_nonempty i (pre ++ [] :: post)
  = Raise (ValueError ("Group " ++ str_nat (i + length pre + 1) ++ " is empty.")).
Proof.
  intro H. revert i. induction H as [|g rest Hg _ IH]; intro i.
  - cbn. rewrite Nat.add_0_r. reflexivity.
  - cbn [app OneWayANOVA.check_nonempty].
    destruct g as [|x g]; [congruence|].
    unfold len. cbn [length].
    destruct (Z.ltb_spec (Z.of_nat (S (length g))) 1); [lia|].
    rewrite IH. cbn [length].
    replace (S i + length rest + 1)%nat with (i + S (length rest) + 1)%nat by lia.
    reflexivity.
Qed.

(** X6. When the name list (if any) fits and there are at least two groups,
    an empty group makes [OneWayANOVA] construction fail with the message
    "Group n is empty." where n is the 1-based position of the first empty
    group. *)
Theorem one_way_first_empty_group_reported
  (data : OneWayANOVA.data_t) (names : option (list string))
  (pre post : list (list Q)) :
  data <> OneWayANOVA.OtherData ->
  groups_of data = pre ++ [] :: post ->
  Forall (fun g => g <> []) pre ->
  (2 <= length (groups_of data))%nat ->
  (forall ns, names = Some ns -> length ns = length (groups_of data)) ->
  OneWayANOVA.init data names
  = Raise (ValueError ("Group " ++ str_nat (length pre + 1) ++ " is empty.")).
Proof.
  intros Hd Hg Hpre Hk Hn. destruct (standardize_groups data Hd) as [an Hs].
  unfold OneWayANOVA.init. rewrite Hs. cbn [bind].
  assert (Hnames : exists nm,
    match names with
    | Some ns =>
        if negb (len ns =? len (groups_of data))%Z
        then Raise (ValueError
               ("group_names length (" ++ str_nat (length ns)
                ++ ") must match number of groups ("
                ++ str_nat (length (groups_of data)) ++ ")."))
        else Ok ns
    | None => Ok an
    end = Ok nm).
  { destruct names as [ns|]; [|eauto].
    unfold len. rewrite (Hn ns eq_refl), Z.eqb_refl. simpl. eauto. }
  destruct Hnames as [nm ->]. cbn [bind].
  unfold len at 1. destruct (Z.ltb_spec (Z.of_nat (length (groups_of data))) 2); [lia|].
  rewrite Hg, (check_nonempty_first_empty 0 pre post Hpre). reflexivity.
Qed.

Lemma one_way_first_empty_group_reported_witness :
  OneWayANOVA.init (OneWayANOVA.SeqData [[1; 2]; [3]; []; [4]; []]) None
  = Raise (ValueError "Group 3 is empty.").
Proof.
  apply (one_way_first_empty_group_reported
           (OneWayANOVA.SeqData [[1; 2]; [3]; []; [4]; []]) None
           [[1; 2]; [3]] [[4]; []]).
  - discriminate.
  - reflexivity.
  - repeat constructor; discriminate.
  - simpl. lia.
  - intros ns H. discriminate.
Defined.

(** X7. Handing [scheffe] the MS_within and df_within of the one-way
    analysis of the same groups, as the one-way window does, gives the same
    table as letting [scheffe] pool the error term itself. *)
Theorem scheffe_with_one_way_error_term
  (sqrtQ : Q -> Q) (f_sf : xnum -> Z -> Z -> Q)
  (sqrtQ_pos : forall x, 0 < x -> 0 < sqrtQ x)
  (data : OneWayANOVA.data_t) (names : option (list string))
  (self : OneWayANOVA.t) (post_names : list string) :
  OneWayANOVA.init data names = Ok self ->
  exists res,
    OneWayANOVA.calculate sqrtQ f_sf self = Ok res
    /\ scheffe sqrtQ f_sf (groups_of data) post_names
               (Some (OneWayANOVA.MS_within res)) (Some (OneWayANOVA.df_within res))
       = scheffe sqrtQ f_sf (groups_of data) post_names None None.
Proof.
  intro Hinit. destruct (init_inv _ _ _ Hinit) as (_ & Hg & Hwf & _).
  pose proof (one_way_calculate_eq sqrtQ f_sf sqrtQ_pos self Hwf) as Hc.
  cbv zeta in Hc. eexists. split; [exact Hc|].
  destruct Hwf as [[Hk Hne] [Ek En]].
  cbn [OneWayANOVA.MS_within OneWayANOVA.df_within].
  rewrite Ek, En, Hg in *.
  unfold scheffe.
  rewrite (scheffe_error_term_recomputed (groups_of data) None None Hne)
    by now left.
  reflexivity.
Qed.

Lemma scheffe_with_one_way_error_term_witness :
  OneWayANOVA.init test_data None = Ok test_self
  /\ exists res,
       OneWayANOVA.calculate test_sqrt test_sf test_self = Ok res
       /\ scheffe test_sqrt test_sf test_groups test_names
                  (Some (OneWayANOVA.MS_within res))
                  (Some (OneWayANOVA.df_within res))
          = scheffe test_sqrt test_sf test_groups test_names None None.
Proof.
  split; [reflexivity|].
  apply (scheffe_with_one_way_error_term test_sqrt test_sf test_sqrt_pos
           test_data None test_self test_names).
  reflexivity.
Defined.

(** ** More on the two-way engine *)

(** X8. [TwoWayANOVA] construction has three outcomes.  It succeeds exactly
    on a grid with at least two rows that is rectangular with at least two
    cells per row and two replicates per cell.  It raises [IndexError]
    exactly when the grid or its first row is empty.  Every other failure is
    a [ValueError]. *)
Theorem two_way_construction_outcomes
  (data : list (list (list Q))) (fa fb : string) :
  ((exists self, TwoWayANOVA.init data fa fb = Ok self)
   <-> ((2 <= len data)%Z
        /\ exists b r, (2 <= b)%Z /\ (2 <= r)%Z /\ rectangular b r data))
  /\ (TwoWayANOVA.init data fa fb = Raise IndexError
      <-> (data = [] \/ exists rest, data = [] :: rest))
  /\ (forall e, TwoWayANOVA.init data fa fb = Raise e ->
      e = IndexError \/ exists msg, e = ValueError msg).
Proof.
  split; [|split].
  - split.
    + intros [self H]. destruct (two_way_init_inv _ _ _ _ H) as [Hd Hwf].
      destruct Hwf as (Ea & Ha & Hb & Hr & _ & Hrect). rewrite Hd in *.
      split; [lia|]. eauto.
    + intros [Ha (b & r & Hb & Hr & Hrect)].
      exact (two_way_init_ok data fa fb b r Ha Hb Hr Hrect).
  - unfold TwoWayANOVA.init. cbv zeta.
    destruct data as [|row0 rest]; cbn [getitem nth_error bind].
    { split; [now left|reflexivity]. }
    destruct row0 as [|cell00 row0']; cbn [getitem nth_error bind].
    { split; [right; eauto|reflexivity]. }
    set (s := TwoWayANOVA.mk _ _ _ _ _ _ _).
    split.
    + intro H. exfalso.
      destruct (validate_spec s) as [[Hv _]|[[msg Hv] _]]; rewrite Hv in H;
        discriminate.
    + intros [H|[rest' H]]; discriminate.
  - intros e. unfold TwoWayANOVA.init. cbv zeta.
    destruct data as [|row0 rest]; cbn [getitem nth_error bind].
    { intro H. inversion H. now left. }
    destruct row0 as [|cell00 row0']; cbn [getitem nth_error bind].
    { intro H. inversion H. now left. }
    set (s := TwoWayANOVA.mk _ _ _ _ _ _ _).
    destruct (validate_spec s) as [[Hv _]|[[msg Hv] _]]; rewrite Hv;
      cbn [bind]; intro H; inversion H. right. eauto.
Qed.

(** X9. Once [data[0][0]] exists, [TwoWayANOVA] construction reports the
    first failed check, in this order: fewer than two rows ("Factor A must
    have at least 2 levels."), fewer than two cells in the first row
    ("Factor B ..."), fewer than two replicates in the first cell (the
    replicate message); and a grid that is not rectangular with the
    dimensions of its first row and first cell is always a [ValueError]. *)
Theorem two_way_validation_messages
  (data : list (list (list Q))) (fa fb : string)
  (row0 : list (list Q)) (cell00 : list Q) :
  nth_error data 0 = Some row0 -> nth_error row0 0 = Some cell00 ->
  ((len data < 2)%Z ->
   TwoWayANOVA.init data fa fb
   = Raise (ValueError "Factor A must have at least 2 levels."))
  /\ ((2 <= len data)%Z -> (len row0 < 2)%Z ->
      TwoWayANOVA.init data fa fb
      = Raise (ValueError "Factor B must have at least 2 levels."))
  /\ ((2 <= len data)%Z -> (2 <= len row0)%Z -> (len cell00 < 2)%Z ->
      TwoWayANOVA.init data fa fb
      = Raise (ValueError
          "Two-way ANOVA with replication requires at least 2 replicates per cell."))
  /\ (~ rectangular (len row0) (len cell00) data ->
      exists msg, TwoWayANOVA.init data fa fb = Raise (ValueError msg)).
Proof.
  intros H0 H00. split; [|split; [|split]].
  - intro Ha. unfold TwoWayANOVA.init, getitem. cbv zeta.
    rewrite H0. cbn [bind]. rewrite H00. cbn [bind].
    unfold TwoWayANOVA._validate. cbn [TwoWayANOVA.a].
    destruct (Z.ltb_spec (len data) 2); [reflexivity|lia].
  - intros Ha Hb. unfold TwoWayANOVA.init, getitem. cbv zeta.
    rewrite H0. cbn [bind]. rewrite H00. cbn [bind].
    unfold TwoWayANOVA._validate. cbn [TwoWayANOVA.a TwoWayANOVA.b].
    destruct (Z.ltb_spec (len data) 2); [lia|].
    destruct (Z.ltb_spec (len row0) 2); [reflexivity|lia].
  - intros Ha Hb Hr. exact (two_way_single_replicate data fa fb row0 cell00
                              H0 H00 Ha Hb Hr).
  - intro Hn. apply (two_way_validation data fa fb row0 cell00 H0 H00).
    now right.
Qed.

Lemma two_way_validation_messages_witness :
  TwoWayANOVA.init [[[10]; [20]]; [[15]; [25]]] "Factor A" "Factor B"
  = Raise (ValueError
      "Two-way ANOVA with replication requires at least 2 replicates per cell.").
Proof.
  destruct (two_way_validation_messages [[[10]; [20]]; [[15]; [25]]]
              "Factor A" "Factor B" [[10]; [20]] [10] eq_refl eq_refl)
    as (_ & _ & H & _).
  apply H; unfold len; simpl; lia.
Defined.

Lemma concat_map_concat {A B : Type} (f : A -> list B) (ls : list (list A)) :
  concat (map (fun l => concat (map f l)) ls) = concat (map f (concat ls)).
Proof.
  induction ls as [|l rest IH]; cbn [map concat]; [reflexivity|].
  now rewrite map_app, concat_app, IH.
Qed.

Lemma sumQ_map_concat {A : Type} (f : A -> Q) (ls : list (list A)) :
  sumQ (map f (concat ls)) == sumQ (map (fun l => sumQ (map f l)) ls).
Proof.
  induction ls as [|l rest IH]; cbn [map concat sumQ]; [reflexivity|].
  rewrite map_app, sumQ_app, IH. reflexivity.
Qed.

Lemma concat_cells (b r : Z) (data : list (list (list Q))) :
  rectangular b r data -> Forall (fun cell => len cell = r) (concat data).
Proof.
  unfold rectangular. induction 1 as [|row rest [_ Hc] _ IH]; cbn [concat].
  - constructor.
  - apply Forall_app. now split.
Qed.

Lemma cells_nonempty (r : Z) (cells : list (list Q)) :
  (0 < r)%Z -> Forall (fun cell => len cell = r) cells ->
  Forall (fun cell : list Q => cell <> []) cells.
Proof.
  intros Hr H. apply Forall_forall. intros cell Hin E.
  rewrite Forall_forall in H. specialize (H cell Hin).
  subst cell. unfold len in H. simpl in H. lia.
Qed.

Lemma cell_mean_eq (r : Z) (cell : list Q) :
  len cell = r -> sumQ cell / ofZ r = mean cell.
Proof.
  intro H. unfold mean. now rewrite <- H.
Qed.

(** The residuals of the two-way [calculate], cell after cell. *)
Lemma two_way_residuals_by_cell (b r : Z) (arr : list (list (list Q))) :
  rectangular b r arr ->
  concat (map (fun '(row, cms) =>
                 concat (map (fun '(cell, c) => map (fun x => x - c) cell)
                             (combine row cms)))
              (combine arr (map (map (fun cell => sumQ cell / ofZ r)) arr)))
  = concat (map (fun cell => map (fun x => x - mean cell) cell) (concat arr)).
Proof.
  intro H. rewrite map_combine_map, <- concat_map_concat. f_equal.
  apply map_ext_in. intros row Hrow. rewrite map_combine_map. f_equal.
  apply map_ext_in. intros cell Hcell.
  unfold rectangular in H. rewrite Forall_forall in H.
  destruct (H row Hrow) as [_ Hc]. rewrite Forall_forall in Hc.
  now rewrite (cell_mean_eq r cell (Hc cell Hcell)).
Qed.

(** SS_error of the two-way [calculate] is the pooled within-cell sum of
    squares. *)
Lemma two_way_ss_error_pooled (b r : Z) (arr : list (list (list Q))) :
  rectangular b r arr ->
  sumQ (map (fun '(row, cms) =>
               sumQ (map (fun '(cell, c) => sum_sq_dev cell c) (combine row cms)))
            (combine arr (map (map (fun cell => sumQ cell / ofZ r)) arr)))
  == pooled_ss (concat arr).
Proof.
  intro H. unfold pooled_ss. rewrite map_combine_map, sumQ_map_concat.
  apply sumQ_ext. intros row Hrow. rewrite map_combine_map.
  apply sumQ_ext. intros cell Hcell.
  unfold rectangular in H. rewrite Forall_forall in H.
  destruct (H row Hrow) as [_ Hc]. rewrite Forall_forall in Hc.
  now rewrite (cell_mean_eq r cell (Hc cell Hcell)).
Qed.

(** X10. The residuals of [TwoWayANOVA.calculate] are, cell after cell in
    row-major order, the observations minus the mean of their cell; there
    are N = abr of them and they sum to 0.  The cell means reported are the
    means of the cells. *)
Theorem two_way_residuals
  (sqrtQ : Q -> Q) (f_sf : xnum -> Z -> Z -> Q)
  (sqrtQ_pos : forall x, 0 < x -> 0 < sqrtQ x)
  (data : list (list (list Q))) (fa fb : string) (self : TwoWayANOVA.t) :
  TwoWayANOVA.init data fa fb = Ok self ->
  exists res,
    TwoWayANOVA.calculate sqrtQ f_sf self = Ok res
    /\ TwoWayANOVA.cell_means res = map (map mean) data
    /\ TwoWayANOVA.residuals res
       = concat (map (fun cell => map (fun x => x - mean cell) cell) (concat data))
    /\ len (TwoWayANOVA.residuals res) = TwoWayANOVA.N self
    /\ sumQ (TwoWayANOVA.residuals res) == 0.
Proof.
  intro Hinit. destruct (two_way_init_inv _ _ _ _ Hinit) as [Hd Hwf].
  pose proof (two_way_calculate_eq sqrtQ f_sf sqrtQ_pos self Hwf) as Hc.
  cbv zeta in Hc. eexists. split; [exact Hc|].
  destruct Hwf as (Ea & Ha & Hb & Hr & EN & Hrect). rewrite Hd in *.
  cbn [TwoWayANOVA.cell_means TwoWayANOVA.residuals].
  rewrite (two_way_residuals_by_cell _ _ _ Hrect).
  pose proof (concat_cells _ _ _ Hrect) as Hcells.
  assert (Hne : Forall (fun cell : list Q => cell <> []) (concat data))
    by (apply (cells_nonempty (TwoWayANOVA.r self)); [lia|exact Hcells]).
  split; [|split; [reflexivity|split]].
  - apply map_ext_in. intros row Hrow. apply map_ext_in. intros cell Hcell.
    unfold rectangular in Hrect. rewrite Forall_forall in Hrect.
    destruct (Hrect row Hrow) as [_ Hc']. rewrite Forall_forall in Hc'.
    exact (cell_mean_eq _ cell (Hc' cell Hcell)).
  - rewrite residuals_length. unfold total_len.
    assert (E : forall cells : list (list Q),
               fold_right Z.add 0%Z (map len cells) = len (concat cells)).
    { induction cells as [|c rest IH]; [reflexivity|].
      cbn [map fold_right concat]. rewrite IH. unfold len.
      rewrite length_app. lia. }
    rewrite E, (grid_size _ _ _ Hrect), EN, Ea. reflexivity.
  - apply residuals_sum_zero. exact Hne.
Qed.

Lemma two_way_residuals_witness :
  TwoWayANOVA.init grid_2x3 "Factor A" "Factor B" = Ok grid_self
  /\ exists res,
       TwoWayANOVA.calculate test_sqrt test_sf grid_self = Ok res
       /\ len (TwoWayANOVA.residuals res) = 18%Z
       /\ sumQ (TwoWayANOVA.residuals res) == 0.
Proof.
  split; [reflexivity|].
  destruct (two_way_residuals test_sqrt test_sf test_sqrt_pos
              grid_2x3 "Factor A" "Factor B" grid_self eq_refl)
    as (res & Hc & _ & _ & Hl & Hs).
  exists res. repeat split; assumption.
Defined.



Lemma two_way_init_names (data : list (list (list Q))) (fa fb : string)
  (self : TwoWayANOVA.t) :
  TwoWayANOVA.init data fa fb = Ok self ->
  TwoWayANOVA.factor_a_name self = fa /\ TwoWayANOVA.factor_b_name self = fb.
Proof.
  unfold TwoWayANOVA.init. cbv zeta. intro H.
  destruct (getitem data 0) as [row0|]; [|discriminate]. cbn [bind] in H.
  destruct (getitem row0 0) as [cell00|]; [|discriminate]. cbn [bind] in H.
  destruct (TwoWayANOVA._validate _); [|discriminate]. cbn [bind] in H.
  inversion H. split; reflexivity.
Qed.

Lemma Forall2_map_both {A B C : Type} (R : B -> C -> Prop) (f : A -> B)
  (g : A -> C) (l : list A) :
  (forall x, In x l -> R (f x) (g x)) -> Forall2 R (map f l) (map g l).
Proof.
  induction l as [|x xs IH]; intro H; cbn [map]; constructor.
  - apply H. now left.
  - apply IH. intros y Hy. apply H. now right.
Qed.

Lemma concat_rows {A : Type} (ls : list (list (list A))) :
  concat (map (@concat A) ls) = concat (concat ls).
Proof.
  induction ls as [|l rest IH]; cbn [map concat]; [reflexivity|].
  now rewrite concat_app, IH.
Qed.

Lemma mean_concat (r : Z) (cells : list (list Q)) :
  Forall (fun cell => len cell = r) cells ->
  mean (concat cells) == sumQ (map sumQ cells) / ofZ (len cells * r).
Proof.
  intro H. unfold mean. rewrite sumQ_concat.
  change (ofN (length (concat cells))) with (ofZ (len (concat cells))).
  rewrite (concat_len r cells H). reflexivity.
Qed.

(** X12. The marginal groups that [TwoWayANOVA.calculate] hands to the
    post-hoc tests: [groups_by_a] has one group per row, the b*r
    observations of the row in order, so that together they are all the
    observations in row-major order; [groups_by_b] has one group per column,
    of a*r observations.  The row and column means reported are the means
    of these groups, and the level names are "<factor> 1", "<factor> 2",
    ... *)
Theorem two_way_marginal_groups
  (sqrtQ : Q -> Q) (f_sf : xnum -> Z -> Z -> Q)
  (sqrtQ_pos : forall x, 0 < x -> 0 < sqrtQ x)
  (data : list (list (list Q))) (fa fb : string) (self : TwoWayANOVA.t) :
  TwoWayANOVA.init data fa fb = Ok self ->
  let a := TwoWayANOVA.a self in
  let b := TwoWayANOVA.b self in
  let r := TwoWayANOVA.r self in
  exists res,
    TwoWayANOVA.calculate sqrtQ f_sf self = Ok res
    /\ TwoWayANOVA.groups_by_a res = map (@concat Q) data
    /\ concat (TwoWayANOVA.groups_by_a res) = concat (concat data)
    /\ len (TwoWayANOVA.groups_by_a res) = a
    /\ Forall (fun g => len g = (b * r)%Z) (TwoWayANOVA.groups_by_a res)
    /\ len (TwoWayANOVA.groups_by_b res) = b
    /\ Forall (fun g => len g = (a * r)%Z) (TwoWayANOVA.groups_by_b res)
    /\ Forall2 (fun m g => m == mean g)
               (TwoWayANOVA.row_means res) (TwoWayANOVA.groups_by_a res)
    /\ Forall2 (fun m g => m == mean g)
               (TwoWayANOVA.col_means res) (TwoWayANOVA.groups_by_b res)
    /\ TwoWayANOVA.a_names res
       = map (fun i => fa ++ " " ++ str_nat (i + 1))%string (seq 0 (length data))
    /\ TwoWayANOVA.b_names res
       = map (fun j => fb ++ " " ++ str_nat (j + 1))%string (seq 0 (Z.to_nat b)).
Proof.
  intro Hinit. destruct (two_way_init_inv _ _ _ _ Hinit) as [Hd Hwf].
  destruct (two_way_init_names _ _ _ _ Hinit) as [Hfa Hfb]. cbv zeta.
  pose proof (two_way_calculate_eq sqrtQ f_sf sqrtQ_pos self Hwf) as Hc.
  cbv zeta in Hc. eexists. split; [exact Hc|].
  destruct Hwf as (Ea & Ha & Hb & Hr & EN & Hrect). rewrite Hd in *.
  cbn [TwoWayANOVA.groups_by_a TwoWayANOVA.groups_by_b TwoWayANOVA.row_means
       TwoWayANOVA.col_means TwoWayANOVA.a_names TwoWayANOVA.b_names].
  rewrite Hfa, Hfb.
  assert (Hrows : forall row, In row data ->
            len row = TwoWayANOVA.b self
            /\ Forall (fun cell => len cell = TwoWayANOVA.r self) row).
  { unfold rectangular in Hrect. rewrite Forall_forall in Hrect. exact Hrect. }
  assert (Hcols : forall j, In j (seq 0 (Z.to_nat (TwoWayANOVA.b self))) ->
            Forall (fun cell => len cell = TwoWayANOVA.r self)
                   (TwoWayANOVA.column data j)
            /\ len (TwoWayANOVA.column data j) = TwoWayANOVA.a self).
  { intros j Hj. apply in_seq in Hj. split.
    - apply (column_cells (TwoWayANOVA.b self)); [exact Hrect|lia].
    - unfold len. rewrite column_length. exact (eq_sym Ea). }
  split; [reflexivity|]. split; [apply concat_rows|].
  repeat apply conj.
  - unfold len. rewrite length_map. exact (eq_sym Ea).
  - apply Forall_forall. intros g Hg. apply in_map_iff in Hg as [row [<- Hrow]].
    destruct (Hrows row Hrow) as [Hl Hcells].
    rewrite (concat_len _ _ Hcells), Hl. reflexivity.
  - unfold len. rewrite length_map, length_seq. lia.
  - apply Forall_forall. intros g Hg. apply in_map_iff in Hg as [j [<- Hj]].
    destruct (Hcols j Hj) as [Hcells Hl].
    rewrite (concat_len _ _ Hcells), Hl. reflexivity.
  - apply Forall2_map_both. intros row Hrow.
    destruct (Hrows row Hrow) as [Hl Hcells].
    rewrite (mean_concat _ _ Hcells), Hl. reflexivity.
  - apply Forall2_map_both. intros j Hj.
    destruct (Hcols j Hj) as [Hcells Hl].
    rewrite (mean_concat _ _ Hcells), Hl. reflexivity.
  - f_equal. f_equal. rewrite Ea. unfold len. now rewrite Nat2Z.id.
  - reflexivity.
Qed.

Lemma two_way_marginal_groups_witness :
  TwoWayANOVA.init grid_2x3 "Factor A" "Factor B" = Ok grid_self
  /\ exists res,
       TwoWayANOVA.calculate test_sqrt test_sf grid_self = Ok res
       /\ TwoWayANOVA.groups_by_a res = map (@concat Q) grid_2x3
       /\ len (TwoWayANOVA.groups_by_b res) = 3%Z.
Proof.
  split; [reflexivity|].
  destruct (two_way_marginal_groups test_sqrt test_sf test_sqrt_pos
              grid_2x3 "Factor A" "Factor B" grid_self eq_refl)
    as (res & Hc & H1 & _ & _ & _ & H2 & _).
  exists res. repeat split; assumption.
Defined.



(** ** More on the post-hoc suite *)




Section ShortNames.

Variable sqrtQ : Q -> Q.
Variable f_sf : xnum -> Z -> Z -> Q.
Variable ttest_ind : list Q -> list Q -> Q * Q.
Variables tukey_pvalue tukey_ci_low tukey_ci_high : list (list Q) -> nat -> nat -> Q.
Variable groups : list (list Q).
Variable names : list string.

Hypothesis sqrtQ_pos_inv : forall x, 0 < sqrtQ x -> 0 < x.
Hypothesis groups_valid : valid_groups groups.
Hypothesis names_short : (length names < length groups)%nat.





End ShortNames.



(** X15. With fewer than two groups there is no pair to compare:
    [bonferroni] then fails with [ZeroDivisionError], from [alpha / m] with
    m = 0 comparisons, whereas [scheffe] on non-empty groups returns an empty
    table. *)
Theorem post_hoc_fewer_than_two_groups
  (sqrtQ : Q -> Q) (f_sf : xnum -> Z -> Z -> Q)
  (ttest_ind : list Q -> list Q -> Q * Q)
  (groups : list (list Q)) (names : list string) (alpha : Q)
  (ms_within : option Q) (df_within : option Z) :
  (length groups < 2)%nat ->
  bonferroni ttest_ind groups names alpha = Raise ZeroDivisionError
  /\ (Forall (fun g => g <> []) groups ->
      scheffe sqrtQ f_sf groups names ms_within df_within = Ok []).
Proof.
  intro Hk. split.
  - unfold bonferroni.
    assert (E : (len groups * (len groups - 1) / 2)%Z = 0%Z).
    { unfold len. destruct groups as [|g [|g' rest]]; [reflexivity|reflexivity|].
      cbn [length] in Hk. lia. }
    rewrite E. reflexivity.
  - intro Hne. unfold scheffe.
    destruct (scheffe_error_term_ok groups ms_within df_within Hne)
      as (ms' & df' & Ht).
    rewrite Ht. cbn [bind].
    destruct groups as [|g [|g' rest]]; [reflexivity|reflexivity|].
    cbn [length] in Hk. lia.
Qed.

Lemma post_hoc_fewer_than_two_groups_witness :
  bonferroni test_ttest [[1; 2; 3]] ["A"]%string alpha_default
  = Raise ZeroDivisionError
  /\ scheffe test_sqrt test_sf [[1; 2; 3]] ["A"]%string None None = Ok [].
Proof.
  destruct (post_hoc_fewer_than_two_groups test_sqrt test_sf test_ttest
              [[1; 2; 3]] ["A"]%string alpha_default None None) as [H1 H2].
  - simpl. lia.
  - split; [exact H1|]. apply H2. repeat constructor; discriminate.
Defined.







(** X19. The significance marker [sig] of the summaries is empty exactly
    when p >= 0.05, that is exactly when the post-hoc flag [p < 0.05] is
    off; it is one of "", " *", " **", " ***"; and a smaller p never gets
    fewer stars. *)
Theorem sig_marks_significance (p q : Q) :
  (sig p = EmptyString <-> 5 # 100 <= p)
  /\ (sig p <> EmptyString <-> Qlt_bool p alpha_default = true)
  /\ (sig p = "" \/ sig p = " *" \/ sig p = " **" \/ sig p = " ***")%string
  /\ (p <= q -> (String.length (sig q) <= String.length (sig p))%nat).
Proof.
  unfold sig, alpha_default.
  destruct (Qlt_bool p (1 # 1000)) eqn:E1;
    [apply Qlt_bool_iff in E1|apply Qlt_bool_false in E1];
  (destruct (Qlt_bool p (1 # 100)) eqn:E2;
    [apply Qlt_bool_iff in E2|apply Qlt_bool_false in E2]);
  (destruct (Qlt_bool p (5 # 100)) eqn:E3;
    [apply Qlt_bool_iff in E3|apply Qlt_bool_false in E3]);
  try (exfalso; lra).
  all: split; [split; [discriminate || (intros _; lra) | intro; reflexivity || (exfalso; lra)]|].
  all: split; [split; [intros; reflexivity || congruence | intro; discriminate || congruence]|].
  all: split; [tauto|].
  all: intro Hpq;
    destruct (Qlt_bool q (1 # 1000)) eqn:F1;
      [apply Qlt_bool_iff in F1|apply Qlt_bool_false in F1];
    (destruct (Qlt_bool q (1 # 100)) eqn:F2;
      [apply Qlt_bool_iff in F2|apply Qlt_bool_false in F2]);
    (destruct (Qlt_bool q (5 # 100)) eqn:F3;
      [apply Qlt_bool_iff in F3|apply Qlt_bool_false in F3]);
    try (exfalso; lra); cbn; lia.
Qed.

(** ** The two-way engine and the post-hoc suite together *)





(** ** More on the two-way sums of squares *)

Lemma sum_sqr_nonneg {A : Type} (f : A -> Q) (l : list A) :
  0 <= sumQ (map (fun x => sqr (f x)) l).
Proof.
  apply sumQ_nonneg, Forall_forall. intros y Hy.
  apply in_map_iff in Hy as [x [<- _]]. apply sqr_nonneg.
Qed.

(** X21. None of the five sums of squares of [TwoWayANOVA.calculate] is
    negative, each of SS_A, SS_B, SS_AB and SS_error is at most SS_total,
    and no mean square is negative. *)
Theorem two_way_sums_of_squares_nonnegative
  (sqrtQ : Q -> Q) (f_sf : xnum -> Z -> Z -> Q)
  (sqrtQ_pos : forall x, 0 < x -> 0 < sqrtQ x)
  (data : list (list (list Q))) (fa fb : string) (self : TwoWayANOVA.t) :
  TwoWayANOVA.init data fa fb = Ok self ->
  exists res,
    TwoWayANOVA.calculate sqrtQ f_sf self = Ok res
    /\ (0 <= TwoWayANOVA.SS_A res /\ TwoWayANOVA.SS_A res <= TwoWayANOVA.SS_total res)
    /\ (0 <= TwoWayANOVA.SS_B res /\ TwoWayANOVA.SS_B res <= TwoWayANOVA.SS_total res)
    /\ (0 <= TwoWayANOVA.SS_AB res
        /\ TwoWayANOVA.SS_AB res <= TwoWayANOVA.SS_total res)
    /\ (0 <= TwoWayANOVA.SS_error res
        /\ TwoWayANOVA.SS_error res <= TwoWayANOVA.SS_total res)
    /\ 0 <= TwoWayANOVA.MS_A res /\ 0 <= TwoWayANOVA.MS_B res
    /\ 0 <= TwoWayANOVA.MS_AB res /\ 0 <= TwoWayANOVA.MS_error res.
Proof.
  intro Hinit. destruct (two_way_init_inv _ _ _ _ Hinit) as [Hd Hwf].
  pose proof (two_way_calculate_eq sqrtQ f_sf sqrtQ_pos self Hwf) as Hc.
  cbv zeta in Hc. eexists. split; [exact Hc|].
  destruct Hwf as (Ea & Ha & Hb & Hr & EN & Hrect).
  cbn [TwoWayANOVA.SS_A TwoWayANOVA.SS_B TwoWayANOVA.SS_AB TwoWayANOVA.SS_error
       TwoWayANOVA.SS_total TwoWayANOVA.MS_A TwoWayANOVA.MS_B TwoWayANOVA.MS_AB
       TwoWayANOVA.MS_error].
  pose proof (grid_decomposition (TwoWayANOVA.data self)
                (TwoWayANOVA.a self) (TwoWayANOVA.b self) (TwoWayANOVA.r self)
                (Z.to_nat (TwoWayANOVA.a self)) (Z.to_nat (TwoWayANOVA.b self))
                ltac:(lia) ltac:(lia) ltac:(unfold len in Ea; lia) Hrect
                ltac:(lia) ltac:(lia) ltac:(lia)) as E.
  pose proof (two_way_ss_error_pooled _ _ _ Hrect) as Ee.
  pose proof (pooled_ss_nonneg (concat (TwoWayANOVA.data self))) as He.
  rewrite <- Ee in He. clear Ee.
  assert (Pa : 0 < ofZ (TwoWayANOVA.a self)) by (apply ofZ_pos; lia).
  assert (Pb : 0 < ofZ (TwoWayANOVA.b self)) by (apply ofZ_pos; lia).
  assert (Pr : 0 < ofZ (TwoWayANOVA.r self)) by (apply ofZ_pos; lia).
  set (grand := sumQ (map (fun row => sumQ (map sumQ row)) (TwoWayANOVA.data self))
                / ofZ (TwoWayANOVA.a self * TwoWayANOVA.b self * TwoWayANOVA.r self))
    in *.
  clear Hc.
  set (row_means := map (fun row => sumQ (map sumQ row)
                                    / ofZ (TwoWayANOVA.b self * TwoWayANOVA.r self))
                        (TwoWayANOVA.data self)) in *.
  set (col_means := map _ (seq 0 (Z.to_nat (TwoWayANOVA.b self)))) in *.
  pose proof (sum_sqr_nonneg (fun m => m - grand) row_means) as Hsa.
  pose proof (sum_sqr_nonneg (fun m => m - grand) col_means) as Hsb.
  cbv beta in Hsa, Hsb.
  set (sa := sumQ (map (fun m => sqr (m - grand)) row_means)) in *.
  set (sb := sumQ (map (fun m => sqr (m - grand)) col_means)) in *.
  assert (Hsab : 0 <= sumQ (map (fun '(cms, rm) =>
                                   sumQ (map (fun '(c, cm) => sqr (c - rm - cm + grand))
                                             (combine cms col_means)))
                                (combine (map (map (fun cell => sumQ cell
                                                      / ofZ (TwoWayANOVA.r self)))
                                              (TwoWayANOVA.data self))
                                         row_means))).
  { apply sumQ_nonneg, Forall_forall. intros y Hy.
    apply in_map_iff in Hy as [[cms rm] [<- _]].
    apply sumQ_nonneg, Forall_forall. intros z Hz.
    apply in_map_iff in Hz as [[c cm] [<- _]]. apply sqr_nonneg. }
  set (sab := sumQ (map _ (combine (map _ (TwoWayANOVA.data self)) row_means))) in *.
  set (se := sumQ (map _ (combine (TwoWayANOVA.data self) _))) in *.
  set (st := sumQ (map _ (TwoWayANOVA.data self))) in *.
  assert (HA : 0 <= ofZ (TwoWayANOVA.b self) * ofZ (TwoWayANOVA.r self) * sa)
    by (apply Qmult_le_0_compat; [apply Qmult_le_0_compat; lra|exact Hsa]).
  assert (HB : 0 <= ofZ (TwoWayANOVA.a self) * ofZ (TwoWayANOVA.r self) * sb)
    by (apply Qmult_le_0_compat; [apply Qmult_le_0_compat; lra|exact Hsb]).
  assert (HAB : 0 <= ofZ (TwoWayANOVA.r self) * sab)
    by (apply Qmult_le_0_compat; [lra|exact Hsab]).
  repeat apply conj; try lra.
  - apply Qdiv_nonneg; [exact HA|apply ofZ_pos; lia].
  - apply Qdiv_nonneg; [exact HB|apply ofZ_pos; lia].
  - apply Qdiv_nonneg; [exact HAB|apply ofZ_pos; nia].
  - apply Qdiv_nonneg; [exact He|apply ofZ_pos; nia].
Qed.

Lemma two_way_sums_of_squares_nonnegative_witness :
  TwoWayANOVA.init grid_2x3 "Factor A" "Factor B" = Ok grid_self
  /\ exists res,
       TwoWayANOVA.calculate test_sqrt test_sf grid_self = Ok res
       /\ 0 <= TwoWayANOVA.SS_AB res
       /\ TwoWayANOVA.SS_error res <= TwoWayANOVA.SS_total res.
Proof.
  split; [reflexivity|].
  destruct (two_way_sums_of_squares_nonnegative test_sqrt test_sf test_sqrt_pos
              grid_2x3 "Factor A" "Factor B" grid_self eq_refl)
    as (res & Hc & _ & _ & [H1 _] & [_ H2] & _).
  exists res. repeat split; assumption.
Defined.

(** X22. When the cell means are additive, mean(cell i j) = u_i + v_j for
    some row effects u and column effects v, [TwoWayANOVA.calculate] finds no
    interaction: SS_AB = 0 and MS_AB = 0. *)
Theorem two_way_additive_cells_no_interaction
  (sqrtQ : Q -> Q) (f_sf : xnum -> Z -> Z -> Q)
  (sqrtQ_pos : forall x, 0 < x -> 0 < sqrtQ x)
  (data : list (list (list Q))) (fa fb : string) (self : TwoWayANOVA.t)
  (u v : nat -> Q) :
  TwoWayANOVA.init data fa fb = Ok self ->
  (forall i j, (i < length data)%nat -> (Z.of_nat j < TwoWayANOVA.b self)%Z ->
     mean (nth j (nth i data []) []) == u i + v j) ->
  exists res,
    TwoWayANOVA.calculate sqrtQ f_sf self = Ok res
    /\ TwoWayANOVA.SS_AB res == 0
    /\ TwoWayANOVA.MS_AB res == 0.
Proof.
  intros Hinit Hadd. destruct (two_way_init_inv _ _ _ _ Hinit) as [Hd Hwf].
  pose proof (two_way_calculate_eq sqrtQ f_sf sqrtQ_pos self Hwf) as Hc.
  cbv zeta in Hc. eexists. split; [exact Hc|]. clear Hc.
  destruct Hwf as (Ea & Ha & Hb & Hr & EN & Hrect). rewrite Hd in *.
  cbn [TwoWayANOVA.SS_AB TwoWayANOVA.MS_AB].
  set (a := TwoWayANOVA.a self) in *. set (b := TwoWayANOVA.b self) in *.
  set (r := TwoWayANOVA.r self) in *.
  set (na := Z.to_nat a). set (nb := Z.to_nat b).
  assert (Hna : a = Z.of_nat na) by (subst na; lia).
  assert (Hnb : b = Z.of_nat nb) by (subst nb; lia).
  assert (Hlen : length data = na) by (unfold len in Ea; subst na; lia).
  assert (Pa : (0 < na)%nat) by (subst na; lia).
  assert (Pb : (0 < nb)%nat) by (subst nb; lia).
  assert (Pr : (0 < r)%Z) by lia.
  pose proof (grid_HR data b r _ _ Hnb Hlen Hrect Pa Pb Pr) as HR.
  pose proof (grid_HC data a r _ _ Hna Hlen Pa Pb Pr) as HC.
  pose proof (grid_HG data a b r _ _ Hna Hnb Hlen Hrect Pa Pb Pr) as HG.
  assert (Hcell : forall i j, (i < na)%nat -> (j < nb)%nat ->
            sumQ (nth j (nth i data []) []) / ofZ r == u i + v j).
  { intros i j Hi Hj. rewrite <- (Hadd i j) by lia.
    unfold rectangular in Hrect. rewrite Forall_forall in Hrect.
    destruct (Hrect (nth i data [])) as [Hl Hcells]; [apply nth_In; lia|].
    rewrite Forall_forall in Hcells.
    rewrite (cell_mean_eq r); [reflexivity|].
    apply Hcells, nth_In. unfold len in Hl. lia. }
  assert (Hrow : forall i, (i < na)%nat ->
            bsum nb (fun j => sumQ (nth j (nth i data []) []) / ofZ r)
            == ofN nb * u i + bsum nb v).
  { intros i Hi.
    rewrite (bsum_ext nb _ (fun j => u i + v j)) by (intros; now apply Hcell).
    rewrite bsum_plus, bsum_const. reflexivity. }
  assert (Hcol : forall j, (j < nb)%nat ->
            bsum na (fun i => sumQ (nth j (nth i data []) []) / ofZ r)
            == bsum na u + ofN na * v j).
  { intros j Hj.
    rewrite (bsum_ext na _ (fun i => u i + v j)) by (intros; now apply Hcell).
    rewrite bsum_plus, bsum_const. reflexivity. }
  assert (Hall : bsum na (fun i => bsum nb (fun j =>
                   sumQ (nth j (nth i data []) []) / ofZ r))
                 == ofN nb * bsum na u + ofN na * bsum nb v).
  { rewrite (bsum_ext na _ (fun i => ofN nb * u i + bsum nb v)) by exact Hrow.
    rewrite bsum_plus, bsum_scale, bsum_const. reflexivity. }
  assert (Hss : sumQ (map (fun '(cms, rm) =>
                   sumQ (map (fun '(c, cm) =>
                                sqr (c - rm - cm
                                     + sumQ (map (fun row => sumQ (map sumQ row)) data)
                                       / ofZ (a * b * r)))
                             (combine cms
                                (map (fun j => sumQ (map sumQ (TwoWayANOVA.column data j))
                                               / ofZ (a * r))
                                     (seq 0 nb)))))
                (combine (map (map (fun cell => sumQ cell / ofZ r)) data)
                         (map (fun row => sumQ (map sumQ row) / ofZ (b * r)) data)))
              == 0).
  { rewrite (grid_ss_ab data a b r na nb Hnb Hlen Hrect Pa Pb).
    apply bsum_zero. intros i Hi. apply bsum_zero. intros j Hj.
    specialize (HR i Hi). specialize (HC j Hj).
    rewrite (Hrow i Hi) in HR. rewrite (Hcol j Hj) in HC. rewrite Hall in HG.
    pose proof (Hcell i j Hi Hj) as Hc.
    set (c := sumQ (nth j (nth i data []) []) / ofZ r) in *.
    set (R := sumQ (map sumQ (nth i data [])) / ofZ (b * r)) in *.
    set (C := sumQ (map sumQ (TwoWayANOVA.column data j)) / ofZ (a * r)) in *.
    set (G := sumQ (map (fun row => sumQ (map sumQ row)) data) / ofZ (a * b * r)) in *.
    assert (E : ofN na * ofN nb * (c - R - C + G) == 0).
    { setoid_replace (ofN na * ofN nb * (c - R - C + G))
        with (ofN na * ofN nb * c - ofN na * (ofN nb * R)
              - ofN nb * (ofN na * C) + ofN na * ofN nb * G) by ring.
      rewrite HR, HC, HG, Hc. ring. }
    apply Qmult_integral in E. destruct E as [E|E].
    - apply Qmult_integral in E. exfalso.
      destruct E as [E|E]; revert E; apply ofN_nonzero; lia.
    - unfold sqr. rewrite E. ring. }
  split.
  - rewrite Hss. ring.
  - rewrite Hss. unfold Qdiv. ring.
Qed.

Lemma two_way_additive_cells_no_interaction_witness :
  TwoWayANOVA.init grid_2x3 "Factor A" "Factor B" = Ok grid_self
  /\ exists res,
       TwoWayANOVA.calculate test_sqrt test_sf grid_self = Ok res
       /\ TwoWayANOVA.SS_AB res == 0.
Proof.
  split; [reflexivity|].
  destruct (two_way_additive_cells_no_interaction test_sqrt test_sf test_sqrt_pos
              grid_2x3 "Factor A" "Factor B" grid_self
              (fun i => match i with O => 13 | _ => 11 end)
              (fun j => match j with O => 0 | S O => 2 | _ => 5 end)
              eq_refl)
    as (res & Hc & H & _).
  - intros i j Hi Hj. cbn in Hi, Hj.
    destruct i as [|[|i]]; [| |lia];
      (destruct j as [|[|[|j]]]; [| | |lia]); vm_compute; reflexivity.
  - exists res. split; assumption.
Defined.
